(** * The analysis pipeline of the Reporter's AI Editing Desk (App.jsx)

    A shallow embedding of the React component [App] of [src/App.jsx]
    (and of its sibling revision) together with the JavaScript built-ins it
    calls: [String.prototype.replace] with the fence pattern,
    [String.prototype.trim], [JSON.parse], optional chaining over the
    response and template literals.

    JavaScript strings are sequences of UTF-16 code units; they are lists
    of [N] here (nothing below depends on the 16-bit bound).  React state
    is a record threaded through the handlers; the outside world (the
    [fetch] transport, the [FileReader]) is an explicit argument and every
    outward effect is recorded in a trace of events. *)

From Stdlib Require Import NArith ZArith List String Ascii Bool Lia.
From Stdlib Require Import DecimalString.
Import ListNotations.

Set Implicit Arguments.
Set Warnings "-register-all".

(* ================================================================== *)
(** ** JavaScript strings *)
(* ================================================================== *)

Module JsString.

Open Scope N_scope.

Definition jsstring := list N.

(** An ASCII literal of the source as a sequence of code units. *)
Definition lit (s : string) : jsstring :=
  map N_of_ascii (list_ascii_of_string s).

(** The double quote, written by its code unit. *)
Definition dquote : N := 34.
Definition backtick : N := 96.
Definition backslash : N := 92.

Fixpoint eqb (a b : jsstring) : bool :=
  match a, b with
  | [], [] => true
  | x :: a', y :: b' => (x =? y) && eqb a' b'
  | _, _ => false
  end.

(** [String.prototype.startsWith]. *)
Fixpoint startsWith (p s : jsstring) : bool :=
  match p, s with
  | [], _ => true
  | x :: p', y :: s' => (x =? y) && startsWith p' s'
  | _ :: _, [] => false
  end.

(** [String.prototype.includes]. *)
Fixpoint includes (needle hay : jsstring) : bool :=
  startsWith needle hay ||
  match hay with
  | [] => false
  | _ :: hay' => includes needle hay'
  end.

(** [String.prototype.endsWith]. *)
Definition endsWith (p s : jsstring) : bool :=
  startsWith (rev p) (rev s).

(** The conversion of an integral Number to a string, as a template
    literal performs it: decimal digits, a minus sign when negative. *)
Definition numberToString (n : Z) : jsstring :=
  lit (NilZero.string_of_int (Z.to_int n)).

(** WhiteSpace and LineTerminator code units of ECMAScript, the ones
    [trim] removes. *)
Definition isWhiteSpace (c : N) : bool :=
  (c =? 9) || (c =? 10) || (c =? 11) || (c =? 12) || (c =? 13) ||
  (c =? 32) || (c =? 160) || (c =? 5760) ||
  ((8192 <=? c) && (c <=? 8202)) ||
  (c =? 8232) || (c =? 8233) || (c =? 8239) || (c =? 8287) ||
  (c =? 12288) || (c =? 65279).

Fixpoint trimStart (s : jsstring) : jsstring :=
  match s with
  | [] => []
  | c :: r => if isWhiteSpace c then trimStart r else s
  end.

Definition trimEnd (s : jsstring) : jsstring :=
  rev (trimStart (rev s)).

(** [String.prototype.trim]. *)
Definition trim (s : jsstring) : jsstring :=
  trimEnd (trimStart s).

Definition fence : jsstring := [backtick; backtick; backtick].
Definition fenceJson : jsstring := fence ++ lit "json".

(** [s.replace(/```json|```/g, '')]: the text is scanned from the left;
    at the first position where the pattern matches, the alternative
    [```json] is tried before [```], the match is dropped and the scan
    resumes after it.  [skip] counts the code units of the current match
    that are still to be dropped. *)
Fixpoint replaceFences (skip : nat) (s : jsstring) : jsstring :=
  match s with
  | [] => []
  | c :: r =>
      match skip with
      | S k => replaceFences k r
      | O =>
          if startsWith fenceJson s then replaceFences 6 r
          else if startsWith fence s then replaceFences 2 r
          else c :: replaceFences 0 r
      end
  end.

(** [jsonText.replace(/```json|```/g, '').trim()] *)
Definition cleanJsonText (jsonText : jsstring) : jsstring :=
  trim (replaceFences 0 jsonText).

End JsString.

Import JsString.

(* ================================================================== *)
(** ** JSON values and [JSON.parse] *)
(* ================================================================== *)

Module Json.

Open Scope N_scope.

(** The values [JSON.parse] and [response.json()] produce.  A number is
    kept as the exact decimal value of its literal, [(-1)^neg * mant *
    10^exp10]; the Number the engine stores is the double nearest to it.
    An object keeps its members in source order, duplicates included: a
    later member with the same key overrides an earlier one on lookup. *)
Inductive JsValue :=
| JNull
| JBool (b : bool)
| JNum (neg : bool) (mant : N) (exp10 : Z)
| JStr (s : jsstring)
| JArr (xs : list JsValue)
| JObj (members : list (jsstring * JsValue)).

Inductive Token :=
| TLBrace | TRBrace | TLBracket | TRBracket | TColon | TComma
| TTrue | TFalse | TNull
| TString (s : jsstring)
| TNumber (neg : bool) (mant : N) (exp10 : Z).

Definition ch (a : ascii) : N := N_of_ascii a.

(** Insignificant whitespace of the JSON grammar: tab, LF, CR, space. *)
Definition isJsonWhiteSpace (c : N) : bool :=
  (c =? 9) || (c =? 10) || (c =? 13) || (c =? 32).

Definition isDigit (c : N) : bool := (48 <=? c) && (c <=? 57).
Definition isDigit19 (c : N) : bool := (49 <=? c) && (c <=? 57).
Definition isExpMark (c : N) : bool := (c =? ch "e") || (c =? ch "E").

Definition hexValue (c : N) : option N :=
  if isDigit c then Some (c - 48)
  else if (ch "a" <=? c) && (c <=? ch "f") then Some (c - 87)
  else if (ch "A" <=? c) && (c <=? ch "F") then Some (c - 55)
  else None.

(** *** The lexer, one code unit at a time *)

Inductive NumPhase :=
| NMinus      (* after the sign: a digit must follow *)
| NZero       (* the integer part is the single digit 0 *)
| NInt        (* inside an integer part that starts with 1..9 *)
| NDot        (* after the decimal point: a digit must follow *)
| NFrac       (* inside the fraction digits *)
| NExpMark    (* after e or E: a sign or a digit must follow *)
| NExpSign    (* after the exponent sign: a digit must follow *)
| NExp.       (* inside the exponent digits *)

Record NumAcc := mkNumAcc {
  nNeg : bool;      (* a leading minus sign was read *)
  nMant : N;        (* the digits of integer part and fraction, as one number *)
  nFrac : N;        (* how many of them are fraction digits *)
  nExpNeg : bool;   (* the exponent carries a minus sign *)
  nExp : N          (* the exponent digits *)
}.

Definition numStart (neg : bool) (m : N) : NumAcc := mkNumAcc neg m 0 false 0.
Definition pushInt (a : NumAcc) (c : N) : NumAcc :=
  mkNumAcc (nNeg a) (nMant a * 10 + (c - 48)) (nFrac a) (nExpNeg a) (nExp a).
Definition pushFrac (a : NumAcc) (c : N) : NumAcc :=
  mkNumAcc (nNeg a) (nMant a * 10 + (c - 48)) (nFrac a + 1) (nExpNeg a) (nExp a).
Definition pushExp (a : NumAcc) (c : N) : NumAcc :=
  mkNumAcc (nNeg a) (nMant a) (nFrac a) (nExpNeg a) (nExp a * 10 + (c - 48)).
Definition setExpNeg (a : NumAcc) : NumAcc :=
  mkNumAcc (nNeg a) (nMant a) (nFrac a) true (nExp a).

Definition numToken (a : NumAcc) : Token :=
  TNumber (nNeg a) (nMant a)
    ((if nExpNeg a then Z.opp (Z.of_N (nExp a)) else Z.of_N (nExp a))
     - Z.of_N (nFrac a))%Z.

(** The phases in which the digits read so far form a complete number. *)
Definition numComplete (ph : NumPhase) : bool :=
  match ph with
  | NZero | NInt | NFrac | NExp => true
  | NMinus | NDot | NExpMark | NExpSign => false
  end.

Inductive LexState :=
| LIdle                                             (* between tokens *)
| LString (acc : jsstring)                          (* inside a string; [acc] is reversed *)
| LEscape (acc : jsstring)                          (* after a backslash *)
| LUnicode (acc : jsstring) (k : nat) (v : N)       (* after \u and [k] hex digits of value [v] *)
| LLiteral (rest : jsstring) (tok : Token)          (* inside true, false or null *)
| LNumber (ph : NumPhase) (a : NumAcc).

Definition LexStep := option (LexState * list Token).

Definition lexIdle (c : N) : LexStep :=
  if isJsonWhiteSpace c then Some (LIdle, [])
  else if c =? ch "{" then Some (LIdle, [TLBrace])
  else if c =? ch "}" then Some (LIdle, [TRBrace])
  else if c =? ch "[" then Some (LIdle, [TLBracket])
  else if c =? ch "]" then Some (LIdle, [TRBracket])
  else if c =? ch ":" then Some (LIdle, [TColon])
  else if c =? ch "," then Some (LIdle, [TComma])
  else if c =? dquote then Some (LString [], [])
  else if c =? ch "t" then Some (LLiteral (lit "rue") TTrue, [])
  else if c =? ch "f" then Some (LLiteral (lit "alse") TFalse, [])
  else if c =? ch "n" then Some (LLiteral (lit "ull") TNull, [])
  else if c =? ch "-" then Some (LNumber NMinus (numStart true 0), [])
  else if c =? ch "0" then Some (LNumber NZero (numStart false 0), [])
  else if isDigit19 c then Some (LNumber NInt (numStart false (c - 48)), [])
  else None.

(** The number is complete and [c] does not continue it: the number token
    is emitted and [c] is read as the start of what follows. *)
Definition lexAfterNumber (a : NumAcc) (c : N) : LexStep :=
  match lexIdle c with
  | Some (st, out) => Some (st, numToken a :: out)
  | None => None
  end.

Definition lexNumber (ph : NumPhase) (a : NumAcc) (c : N) : LexStep :=
  match ph with
  | NMinus =>
      if c =? ch "0" then Some (LNumber NZero a, [])
      else if isDigit19 c then Some (LNumber NInt (pushInt a c), [])
      else None
  | NZero =>
      if c =? ch "." then Some (LNumber NDot a, [])
      else if isExpMark c then Some (LNumber NExpMark a, [])
      else lexAfterNumber a c
  | NInt =>
      if isDigit c then Some (LNumber NInt (pushInt a c), [])
      else if c =? ch "." then Some (LNumber NDot a, [])
      else if isExpMark c then Some (LNumber NExpMark a, [])
      else lexAfterNumber a c
  | NDot =>
      if isDigit c then Some (LNumber NFrac (pushFrac a c), []) else None
  | NFrac =>
      if isDigit c then Some (LNumber NFrac (pushFrac a c), [])
      else if isExpMark c then Some (LNumber NExpMark a, [])
      else lexAfterNumber a c
  | NExpMark =>
      if c =? ch "+" then Some (LNumber NExpSign a, [])
      else if c =? ch "-" then Some (LNumber NExpSign (setExpNeg a), [])
      else if isDigit c then Some (LNumber NExp (pushExp a c), [])
      else None
  | NExpSign =>
      if isDigit c then Some (LNumber NExp (pushExp a c), []) else None
  | NExp =>
      if isDigit c then Some (LNumber NExp (pushExp a c), [])
      else lexAfterNumber a c
  end.

Definition lexEscape (acc : jsstring) (c : N) : LexStep :=
  if c =? dquote then Some (LString (dquote :: acc), [])
  else if c =? backslash then Some (LString (backslash :: acc), [])
  else if c =? ch "/" then Some (LString (ch "/" :: acc), [])
  else if c =? ch "b" then Some (LString (8 :: acc), [])
  else if c =? ch "f" then Some (LString (12 :: acc), [])
  else if c =? ch "n" then Some (LString (10 :: acc), [])
  else if c =? ch "r" then Some (LString (13 :: acc), [])
  else if c =? ch "t" then Some (LString (9 :: acc), [])
  else if c =? ch "u" then Some (LUnicode acc 0 0, [])
  else None.

Definition lexStep (st : LexState) (c : N) : LexStep :=
  match st with
  | LIdle => lexIdle c
  | LString acc =>
      if c =? dquote then Some (LIdle, [TString (rev acc)])
      else if c =? backslash then Some (LEscape acc, [])
      else if c <? 32 then None
      else Some (LString (c :: acc), [])
  | LEscape acc => lexEscape acc c
  | LUnicode acc k v =>
      match hexValue c with
      | Some h =>
          match k with
          | 3%nat => Some (LString (v * 16 + h :: acc), [])
          | _ => Some (LUnicode acc (S k) (v * 16 + h), [])
          end
      | None => None
      end
  | LLiteral rest tok =>
      match rest with
      | [] => None
      | x :: [] => if c =? x then Some (LIdle, [tok]) else None
      | x :: rest' => if c =? x then Some (LLiteral rest' tok, []) else None
      end
  | LNumber ph a => lexNumber ph a c
  end.

(** At the end of the text only a complete number may be pending. *)
Definition lexEnd (st : LexState) : option (list Token) :=
  match st with
  | LIdle => Some []
  | LNumber ph a => if numComplete ph then Some [numToken a] else None
  | _ => None
  end.

Fixpoint lexFrom (st : LexState) (s : jsstring) : option (list Token) :=
  match s with
  | [] => lexEnd st
  | c :: r =>
      match lexStep st c with
      | Some (st', out) =>
          match lexFrom st' r with
          | Some ts => Some (out ++ ts)
          | None => None
          end
      | None => None
      end
  end.

Definition tokenize (s : jsstring) : option (list Token) := lexFrom LIdle s.

(** *** The parser, one token at a time *)

(** An enclosing array with the elements completed so far, or an enclosing
    object with the members completed so far and the key whose value is
    being read (both reversed). *)
Inductive Frame :=
| FArray (done : list JsValue)
| FObject (done : list (jsstring * JsValue)) (key : jsstring).

Inductive ParseState :=
| PValue (stack : list Frame)                 (* a value must follow *)
| PArrayFirst (stack : list Frame)            (* after [: a value or ] *)
| PObjectFirst (stack : list Frame)           (* after {: a key or } *)
| PObjectKey (done : list (jsstring * JsValue)) (stack : list Frame)
                                              (* after , in an object: a key *)
| PObjectColon (done : list (jsstring * JsValue)) (key : jsstring)
               (stack : list Frame)           (* after a key: the colon *)
| PAfter (v : JsValue) (stack : list Frame).  (* the value [v] is complete *)

Definition parseValueStart (stack : list Frame) (t : Token) : option ParseState :=
  match t with
  | TLBrace => Some (PObjectFirst stack)
  | TLBracket => Some (PArrayFirst stack)
  | TTrue => Some (PAfter (JBool true) stack)
  | TFalse => Some (PAfter (JBool false) stack)
  | TNull => Some (PAfter JNull stack)
  | TString s => Some (PAfter (JStr s) stack)
  | TNumber neg m e => Some (PAfter (JNum neg m e) stack)
  | TRBrace | TRBracket | TColon | TComma => None
  end.

Definition parseStep (st : ParseState) (t : Token) : option ParseState :=
  match st with
  | PValue stack => parseValueStart stack t
  | PArrayFirst stack =>
      match t with
      | TRBracket => Some (PAfter (JArr []) stack)
      | _ => parseValueStart (FArray [] :: stack) t
      end
  | PObjectFirst stack =>
      match t with
      | TRBrace => Some (PAfter (JObj []) stack)
      | TString k => Some (PObjectColon [] k stack)
      | _ => None
      end
  | PObjectKey done stack =>
      match t with
      | TString k => Some (PObjectColon done k stack)
      | _ => None
      end
  | PObjectColon done k stack =>
      match t with
      | TColon => Some (PValue (FObject done k :: stack))
      | _ => None
      end
  | PAfter v stack =>
      match stack, t with
      | FArray done :: stack', TComma => Some (PValue (FArray (v :: done) :: stack'))
      | FArray done :: stack', TRBracket => Some (PAfter (JArr (rev (v :: done))) stack')
      | FObject done k :: stack', TComma => Some (PObjectKey ((k, v) :: done) stack')
      | FObject done k :: stack', TRBrace =>
          Some (PAfter (JObj (rev ((k, v) :: done))) stack')
      | _, _ => None
      end
  end.

Fixpoint parseFrom (st : ParseState) (ts : list Token) : option JsValue :=
  match ts with
  | [] => match st with PAfter v [] => Some v | _ => None end
  | t :: ts' =>
      match parseStep st t with
      | Some st' => parseFrom st' ts'
      | None => None
      end
  end.

(** [JSON.parse(text)]: [None] stands for the SyntaxError it throws. *)
Definition parse (text : jsstring) : option JsValue :=
  match tokenize text with
  | Some ts => parseFrom (PValue []) ts
  | None => None
  end.

End Json.

Import Json.

(** Test texts are written with single quotes in place of the double
    quotes of JSON. *)
Definition jsonLit (s : string) : jsstring :=
  map (fun c => if (c =? 39)%N then dquote else c) (lit s).

(* ================================================================== *)
(** ** Property access, truthiness and errors *)
(* ================================================================== *)

Module JsRuntime.

Open Scope N_scope.

(** The value of an expression: [None] is [undefined], [Some JNull] is
    [null]. *)
Definition JsExpr := option JsValue.

Fixpoint lookupLast (k : jsstring) (ms : list (jsstring * JsValue)) : JsExpr :=
  match ms with
  | [] => None
  | (k', v) :: r =>
      match lookupLast k r with
      | Some v' => Some v'
      | None => if JsString.eqb k k' then Some v else None
      end
  end.

(** [v.name] for a value other than [null], over own properties: the
    members of an object, the [length] of an array or string.  (The
    prototypes carry none of the names the component reads.) *)
Definition getProperty (v : JsValue) (name : jsstring) : JsExpr :=
  match v with
  | JObj ms => lookupLast name ms
  | JArr xs =>
      if JsString.eqb name (lit "length")
      then Some (JNum false (N.of_nat (List.length xs)) 0) else None
  | JStr s =>
      if JsString.eqb name (lit "length")
      then Some (JNum false (N.of_nat (List.length s)) 0) else None
  | JNull | JBool _ | JNum _ _ _ => None
  end.

(** [v[i]] for a value other than [null]: an element of an array, a code
    unit of a string, the member named by the decimal index of an object. *)
Definition getElement (v : JsValue) (i : nat) : JsExpr :=
  match v with
  | JArr xs => nth_error xs i
  | JStr s => option_map (fun c => JStr [c]) (nth_error s i)
  | JObj ms => lookupLast (numberToString (Z.of_nat i)) ms
  | JNull | JBool _ | JNum _ _ _ => None
  end.

(** [e?.name] and [e?.[i]]: [undefined] when [e] is [null] or [undefined]. *)
Definition optProperty (e : JsExpr) (name : jsstring) : JsExpr :=
  match e with
  | None | Some JNull => None
  | Some v => getProperty v name
  end.

Definition optElement (e : JsExpr) (i : nat) : JsExpr :=
  match e with
  | None | Some JNull => None
  | Some v => getElement v i
  end.

(** A decimal literal denotes the Number zero when its nearest double is
    zero: its digits are all zero, or its value is at most [2^-1075], half
    of the least positive double. *)
Definition denotesZero (mant : N) (exp10 : Z) : bool :=
  (mant =? 0) ||
  ((exp10 <? 0)%Z && (Z.of_N mant * 2 ^ 1075 <=? 10 ^ (- exp10))%Z).

(** ToBoolean. *)
Definition truthy (e : JsExpr) : bool :=
  match e with
  | None | Some JNull => false
  | Some (JBool b) => b
  | Some (JNum _ m x) => negb (denotesZero m x)
  | Some (JStr s) => match s with [] => false | _ => true end
  | Some (JArr _) | Some (JObj _) => true
  end.

(** [e === 'text'] *)
Definition strictEqualsString (e : JsExpr) (text : jsstring) : bool :=
  match e with
  | Some (JStr s) => JsString.eqb s text
  | _ => false
  end.

(** A thrown error, as far as the component looks at it. *)
Record JsError := mkError { message : jsstring }.

(** The texts of the errors the engine itself raises are implementation
    defined; they are parameters of the model. *)
Record Engine := mkEngine {
  (** the SyntaxError of [JSON.parse] on the given text *)
  syntaxErrorMessage : jsstring -> jsstring;
  (** the TypeError of reading the named property of [null] *)
  nullAccessMessage : jsstring -> jsstring;
  (** the TypeError of calling [jsonText.replace] on a value that has no
      such method *)
  notFunctionMessage : JsValue -> jsstring
}.

End JsRuntime.

Import JsRuntime.

(* ================================================================== *)
(** ** The component [App] *)
(* ================================================================== *)

Module App.

Open Scope list_scope.

(** The two revisions of the component: [src/App.jsx] and the sibling copy
    with inline corrections.  They differ in the schema, in the wording of
    the prompt and of the placeholder, and in whether a submission clears
    the previous analysis. *)
Inductive Revision := AppJsx | InlineCorrections.

(** *** Configuration and constants *)

Definition MODEL_NAME_TEXT : jsstring := lit "gemini-2.5-flash-preview-09-2025".
Definition MODEL_NAME_MULTIMODAL : jsstring := lit "gemini-2.5-flash-preview-09-2025".
Definition API_KEY : jsstring := lit "".
Definition API_URL_TEXT : jsstring :=
  lit "https://generativelanguage.googleapis.com/v1beta/models/" ++ MODEL_NAME_TEXT ++
  lit ":generateContent?key=" ++ API_KEY.
Definition API_URL_MULTIMODAL : jsstring :=
  lit "https://generativelanguage.googleapis.com/v1beta/models/" ++ MODEL_NAME_MULTIMODAL ++
  lit ":generateContent?key=" ++ API_KEY.

Definition dq : jsstring := [dquote].
Definition jstr (s : string) : JsValue := JStr (lit s).
Definition field (name : string) (v : JsValue) : jsstring * JsValue := (lit name, v).
Definition stringType (description : jsstring) : JsValue :=
  JObj [field "type" (jstr "STRING"); (lit "description", JStr description)].

Definition headlinesSchema : JsValue :=
  JObj [field "type" (jstr "ARRAY");
        field "items" (JObj [field "type" (jstr "OBJECT");
          field "properties" (JObj [
            field "headlineHindi"
              (stringType (lit "A catchy, journalistic headline written in Hindi."));
            field "subheadlineHindi"
              (stringType (lit "A concise, supporting subheadline written in Hindi."))])])].

Definition correctionsSchema : JsValue :=
  JObj [field "type" (jstr "ARRAY");
        field "items" (JObj [field "type" (jstr "OBJECT");
          field "properties" (JObj [
            field "originalError"
              (stringType (lit "The exact phrase or word highlighted as an error in textWithErrorsHighlighted."));
            field "correctedText"
              (stringType (lit "The grammatically correct or improved text suggestion for the original error."))])]);
        field "description" (jstr "A list of specific error-correction pairs found in the text.")].

(** The response schema for structured output. *)
Definition analysisSchema (rev : Revision) : JsValue :=
  match rev with
  | AppJsx =>
      JObj [field "type" (jstr "OBJECT");
            field "properties" (JObj [
              field "textWithErrorsHighlighted" (stringType (
                lit "The original text with HTML <span> tags injected around detected errors (grammatical, spelling, punctuation), using the class 'error-highlight'. Example: The cow <span class=" ++
                dq ++ lit "error-highlight" ++ dq ++ lit ">eat</span> grass."));
              field "suggestedCorrections" correctionsSchema;
              field "headlinesAndSubheadlines" headlinesSchema]);
            field "required" (JArr [jstr "textWithErrorsHighlighted";
                                    jstr "suggestedCorrections";
                                    jstr "headlinesAndSubheadlines"])]
  | InlineCorrections =>
      JObj [field "type" (jstr "OBJECT");
            field "properties" (JObj [
              field "textWithErrorsHighlighted" (stringType (
                lit "The original text structure, but with errors replaced by: <span class='error-highlight'>OriginalWord</span> <span class='correction-suggestion'>[SuggestedWord]</span>"));
              field "headlinesAndSubheadlines" headlinesSchema]);
            field "required" (JArr [jstr "textWithErrorsHighlighted";
                                    jstr "headlinesAndSubheadlines"])]
  end.

(** *** React state *)

Record File := mkFile { fileName : jsstring; fileType : jsstring }.

Record AppState := mkState {
  inputText : jsstring;
  imageFile : option File;
  isLoading : bool;
  numHeadlines : Z;
  currentAnalysis : JsValue;
  error : jsstring
}.

(** [useState('')], [useState(null)], [useState(false)], [useState(10)],
    [useState(null)], [useState('')]. *)
Definition initialState : AppState :=
  mkState [] None false 10 JNull [].

Definition setInputText (v : jsstring) (st : AppState) : AppState :=
  mkState v (imageFile st) (isLoading st) (numHeadlines st) (currentAnalysis st) (error st).
Definition setImageFile (v : option File) (st : AppState) : AppState :=
  mkState (inputText st) v (isLoading st) (numHeadlines st) (currentAnalysis st) (error st).
Definition setIsLoading (v : bool) (st : AppState) : AppState :=
  mkState (inputText st) (imageFile st) v (numHeadlines st) (currentAnalysis st) (error st).
Definition setNumHeadlines (v : Z) (st : AppState) : AppState :=
  mkState (inputText st) (imageFile st) (isLoading st) v (currentAnalysis st) (error st).
Definition setCurrentAnalysis (v : JsValue) (st : AppState) : AppState :=
  mkState (inputText st) (imageFile st) (isLoading st) (numHeadlines st) v (error st).
Definition setError (v : jsstring) (st : AppState) : AppState :=
  mkState (inputText st) (imageFile st) (isLoading st) (numHeadlines st) (currentAnalysis st) v.

(** *** The request *)

Inductive Part :=
| TextPart (text : jsstring)
| InlineData (mimeType : jsstring) (data : jsstring).

Record Content := mkContent { parts : list Part }.

Record Payload := mkPayload {
  contents : list Content;
  responseMimeType : jsstring;
  responseSchema : JsValue;
  systemInstruction : Content
}.

Definition hindiPending : jsstring := [2346; 2375; 2306; 2337; 2367; 2306; 2327]%N.
Definition hindiLambit : jsstring := [2354; 2306; 2348; 2367; 2340]%N.

(** The prompt template up to [${numHeadlines}]. *)
Definition promptHead (rev : Revision) : jsstring :=
  match rev with
  | AppJsx =>
lit "You are a professional newspaper editor and language analyst. Your task is to analyze the provided article text.
        1. **Error Highlighting**: Identify grammatical, spelling, and minor factual errors. Return the ORIGINAL text, but wrap all error words or phrases in a span with the CSS class 'error-highlight' (defined as text-red-600 font-bold). DO NOT correct the text here.
        2. **Suggested Corrections**: For every grammatical, spelling, or factual error identified in the text, provide the exact original erroneous word/phrase and the single, best corrected word/phrase suggestion for it.
        3. **Hindi Headlines**: Provide "
  | InlineCorrections =>
lit "You are a professional newspaper editor and language analyst. Your task is to analyze the provided article text.
        1. **Inline Correction**: Identify grammatical, spelling, and minor factual errors. Return the ORIGINAL text, but for every error, replace the erroneous word/phrase with a combined HTML structure. This structure MUST contain the original error, followed immediately by the suggestion enclosed in square brackets, all wrapped in distinct spans for styling. The structure should be: 
        `<span class=" ++ dq ++ lit "error-highlight" ++ dq ++
lit ">OriginalError</span> <span class=" ++ dq ++ lit "correction-suggestion" ++ dq ++
lit ">[Correction]</span>`
        Ensure that the structure is properly inserted inline. Use the Hindi example: '" ++
hindiPending ++ lit "' should become '" ++ hindiPending ++
lit " <span class=" ++ dq ++ lit "error-highlight" ++ dq ++ lit ">" ++ hindiPending ++
lit "</span> <span class=" ++ dq ++ lit "correction-suggestion" ++ dq ++
lit ">[" ++ hindiLambit ++ lit "]</span>'.

        2. **Hindi Headlines**: Provide "
  end.

(** The heading of the last item of the prompt, after which [${textInput}]
    is spliced. *)
Definition articleHeading : jsstring := lit "**Article Text**: ".

(** The prompt template between [${numHeadlines}] and [${textInput}]. *)
Definition promptMiddle (rev : Revision) : jsstring :=
  match rev with
  | AppJsx =>
lit " sets of catchy, journalistic headlines and subheadlines written *exclusively* in **Hindi**.
        4. " ++ articleHeading
  | InlineCorrections =>
lit " sets of catchy, journalistic headlines and subheadlines written *exclusively* in **Hindi**.
        3. " ++ articleHeading
  end.

Definition prompt (rev : Revision) (numHeadlines : Z) (textInput : jsstring) : jsstring :=
  promptHead rev ++ numberToString numHeadlines ++ promptMiddle rev ++ textInput.

Definition imagePrompt (prompt : jsstring) : jsstring :=
  lit "First, transcribe the text from this image accurately. Once transcribed, perform the following analysis on the transcribed text: " ++ prompt.

Definition systemInstructionText : jsstring :=
  lit "You are a world-class language model specializing in editorial analysis and multilingual (Hindi) content creation. Your output MUST be valid JSON according to the provided schema.".

(** [contents[0].parts.length > 0 ? contents : [{ parts: [{ text: prompt }] }]] *)
Definition payloadContents (contents : list Content) (prompt : jsstring) : list Content :=
  match contents with
  | c0 :: _ =>
      if (0 <? List.length (parts c0))%nat then contents
      else [mkContent [TextPart prompt]]
  | [] => [mkContent [TextPart prompt]]
  end.

Definition buildPayload (rev : Revision) (contents : list Content) (prompt : jsstring)
  : Payload :=
  mkPayload (payloadContents contents prompt)
            (lit "application/json")
            (analysisSchema rev)
            (mkContent [TextPart systemInstructionText]).

(** The instruction text of a payload: the text of the first part of the
    first content. *)
Definition instructionText (p : Payload) : option jsstring :=
  match contents p with
  | c0 :: _ =>
      match parts c0 with
      | TextPart t :: _ => Some t
      | _ => None
      end
  | [] => None
  end.

(** *** The outside world *)

(** What one call of [fetch] does: it rejects (a network failure), or it
    resolves to a response with its [ok] flag and [status], whose [json()]
    in turn rejects or resolves to a value. *)
Inductive FetchOutcome :=
| FetchRejected (e : JsError)
| FetchResponse (ok : bool) (status : Z) (json : JsError + JsValue).

(** The transport: the outcome of the call number [attempt] of a
    submission, given the address and the body it is sent. *)
Definition Transport := nat -> jsstring -> Payload -> FetchOutcome.

(** Every outward effect of a submission, in order. *)
Inductive Event :=
| EFetch (url : jsstring) (body : Payload)
    (* fetch(apiUrl, { method: 'POST', headers: {...}, body: JSON.stringify(payload) }) *)
| EConsoleError (attemptNumber : nat) (e : JsError)
    (* console.error(`Attempt ${attempt + 1} failed:`, e) *)
| ETimeout (delay : Z).
    (* await new Promise(resolve => setTimeout(resolve, delay)) *)

(** How an async function ends: it returns, or the promise rejects. *)
Inductive Completion :=
| Returned
| Threw (e : JsError).

Record Run := mkRun {
  finalState : AppState;
  trace : list Event;
  completion : Completion
}.

Definition isFetch (ev : Event) : bool :=
  match ev with EFetch _ _ => true | _ => false end.

(** The number of outbound calls of a run. *)
Definition fetchCount (tr : list Event) : nat :=
  List.length (filter isFetch tr).

(** The waits of a run, in order. *)
Fixpoint delays (tr : list Event) : list Z :=
  match tr with
  | [] => []
  | ETimeout d :: tr' => d :: delays tr'
  | _ :: tr' => delays tr'
  end.

(** *** 2. Main analysis logic *)

Section Pipeline.

Variable rev : Revision.
Variable engine : Engine.
Variable transport : Transport.

Definition maxRetries : nat := 3.

Definition httpError (status : Z) : JsError :=
  mkError (lit "HTTP error! status: " ++ numberToString status).
Definition safetyError : JsError :=
  mkError (lit "AI output was blocked due to safety settings. Please adjust the input text.").
Definition emptyError : JsError :=
  mkError (lit "AI returned no JSON content. The prompt might be too complex or the model failed.").

(** [result.candidates?.[0]] *)
Definition firstCandidate (result : JsValue) : JsExpr :=
  optElement (getProperty result (lit "candidates")) 0.

(** [result.candidates?.[0]?.content?.parts?.[0]?.text] *)
Definition jsonTextOf (result : JsValue) : JsExpr :=
  optProperty
    (optElement
       (optProperty (optProperty (firstCandidate result) (lit "content")) (lit "parts"))
       0)
    (lit "text").

(** The part of the [try] block after [response.json()]: the error that is
    thrown, or the parsed analysis. *)
Definition readResult (result : JsValue) : JsError + JsValue :=
  match result with
  | JNull => inl (mkError (nullAccessMessage engine (lit "candidates")))
  | _ =>
      let jsonText := jsonTextOf result in
      if negb (truthy jsonText) then
        if strictEqualsString (optProperty (firstCandidate result) (lit "finishReason"))
                              (lit "SAFETY")
        then inl safetyError
        else inl emptyError
      else
        match jsonText with
        | Some (JStr text) =>
            let cleanedJsonText := cleanJsonText text in
            match Json.parse cleanedJsonText with
            | Some parsedJson => inr parsedJson
            | None => inl (mkError (syntaxErrorMessage engine cleanedJsonText))
            end
        | None | Some JNull => inl (mkError (nullAccessMessage engine (lit "replace")))
        | Some v => inl (mkError (notFunctionMessage engine v))
        end
  end.

(** The [try] block, given what [fetch] did. *)
Definition tryBlock (outcome : FetchOutcome) : JsError + JsValue :=
  match outcome with
  | FetchRejected e => inl e
  | FetchResponse ok status json =>
      if negb ok then inl (httpError status)
      else
        match json with
        | inl e => inl e
        | inr result => readResult result
        end
  end.

(** [Math.pow(2, attempt) * 1000] *)
Definition backoffDelay (attempt : nat) : Z := (2 ^ Z.of_nat attempt * 1000)%Z.

Definition failureMessage (lastError : JsError) : jsstring :=
  lit "Analysis failed after " ++ numberToString (Z.of_nat maxRetries) ++
  lit " attempts. Error: " ++ message lastError.

(** The statements after the loop. *)
Definition afterLoop (lastError : option JsError) (st : AppState) : Run :=
  let st := setIsLoading false st in
  match lastError with
  | Some e => mkRun (setError (failureMessage e) st) [] Returned
  | None => mkRun st [] (Threw (mkError (nullAccessMessage engine (lit "message"))))
  end.

(** [for (let attempt = 0; attempt < maxRetries; attempt++) { try ... catch ... }]
    from the iteration [attempt] on, with [remaining = maxRetries - attempt]
    iterations to go. *)
Fixpoint retryLoop (apiUrl : jsstring) (payload : Payload)
    (remaining attempt : nat) (lastError : option JsError) (st : AppState) : Run :=
  match remaining with
  | O => afterLoop lastError st
  | S remaining' =>
      match tryBlock (transport attempt apiUrl payload) with
      | inr parsedJson =>
          mkRun (setIsLoading false (setCurrentAnalysis parsedJson st))
                [EFetch apiUrl payload] Returned
      | inl e =>
          let wait :=
            if (attempt <? maxRetries - 1)%nat then [ETimeout (backoffDelay attempt)]
            else [] in
          let rest := retryLoop apiUrl payload remaining' (S attempt) (Some e) st in
          mkRun (finalState rest)
                (EFetch apiUrl payload :: EConsoleError (attempt + 1) e :: wait ++ trace rest)
                (completion rest)
      end
  end.

(** [!base64Image]: [null], [undefined] and the empty string are falsy. *)
Definition hasImage (base64Image : option jsstring) : bool :=
  match base64Image with
  | Some (_ :: _) => true
  | _ => false
  end.

Definition hasText (textInput : jsstring) : bool :=
  match textInput with [] => false | _ => true end.

(** The first statements of a submission that goes ahead. *)
Definition beginAnalysis (st : AppState) : AppState :=
  let st := setError [] (setIsLoading true st) in
  match rev with
  | AppJsx => st
  | InlineCorrections => setCurrentAnalysis JNull st
  end.

(** [fetchGeminiAnalysis(base64Image, textInput)], reading [imageFile] and
    [numHeadlines] from the state it was created in. *)
Definition fetchGeminiAnalysis (st : AppState)
    (base64Image : option jsstring) (textInput : jsstring) : Run :=
  if negb (hasText textInput) && negb (hasImage base64Image) then
    mkRun (setError (lit "Please provide text or an image to analyze.") st) [] Returned
  else
    let st := beginAnalysis st in
    let prompt := prompt rev (numHeadlines st) textInput in
    match base64Image with
    | Some ((_ :: _) as data) =>
        match imageFile st with
        | None => mkRun st [] (Threw (mkError (nullAccessMessage engine (lit "type"))))
        | Some file =>
            let imagePart := InlineData (fileType file) data in
            let contents := [mkContent [TextPart (imagePrompt prompt); imagePart]] in
            retryLoop API_URL_MULTIMODAL (buildPayload rev contents prompt)
                      maxRetries 0 None st
        end
    | _ =>
        let contents := [mkContent [TextPart prompt]] in
        retryLoop API_URL_TEXT (buildPayload rev contents prompt) maxRetries 0 None st
    end.

End Pipeline.

(** *** 3. User interaction handlers *)

(** The [FileReader]: reading a file as a data URL fails or loads. *)
Inductive FileRead :=
| ReadFailed (e : JsError)
| ReadLoaded (dataUrl : jsstring).

Definition FileReader := File -> FileRead.

(** [s.split(sep)] for a separator of one code unit. *)
Fixpoint split (sep : N) (s : jsstring) : list jsstring :=
  match s with
  | [] => [[]]
  | c :: r =>
      if (c =? sep)%N then [] :: split sep r
      else
        match split sep r with
        | h :: t => (c :: h) :: t
        | [] => [[c]]
        end
  end.

(** [fileToBase64]: [reader.result.split(',')[1]] on load, a rejection on
    error. *)
Definition fileToBase64 (reader : FileReader) (file : File) : JsError + option jsstring :=
  match reader file with
  | ReadFailed e => inl e
  | ReadLoaded dataUrl => inr (nth_error (split (ch ",") dataUrl) 1)
  end.

Definition hasFile (f : option File) : bool :=
  match f with Some _ => true | None => false end.

Definition handleAnalyze (rev : Revision) (engine : Engine) (transport : Transport)
    (reader : FileReader) (st : AppState) : Run :=
  if negb (hasText (inputText st)) && negb (hasFile (imageFile st)) then
    mkRun (setError (lit "Please paste text or select an image.") st) [] Returned
  else
    match imageFile st with
    | Some file =>
        match fileToBase64 reader file with
        | inr base64 => fetchGeminiAnalysis rev engine transport st base64 (inputText st)
        | inl _ =>
            mkRun (setError (lit "Failed to convert image to base64.") st) [] Returned
        end
    | None => fetchGeminiAnalysis rev engine transport st None (inputText st)
    end.

(** The text put into the text input when an image file is selected. *)
Definition imagePlaceholder (rev : Revision) (name : jsstring) : jsstring :=
  match rev with
  | AppJsx =>
      lit "--- Image file selected: " ++ name ++
      lit " --- (Content will be transcribed by AI)"
  | InlineCorrections =>
      lit "--- Image file selected: " ++ name ++
      lit " --- (Content will be transcribed by AI upon analysis)"
  end.

(** [handleFileChange], given [e.target.files[0]]. *)
Definition handleFileChange (rev : Revision) (file : option File) (st : AppState)
  : AppState :=
  match file with
  | Some f => setInputText (imagePlaceholder rev (fileName f)) (setImageFile (Some f) st)
  | None => setInputText [] (setImageFile None st)
  end.

(** The [onChange] of the text area. *)
Definition handleTextChange (value : jsstring) (st : AppState) : AppState :=
  setImageFile None (setInputText value st).

(** The [onChange] of the headline-count selector. *)
Definition handleHeadlinesChange (value : Z) (st : AppState) : AppState :=
  setNumHeadlines value st.

(** *** 4. Rendering: the options of the selector *)

(** [Array.from({ length: 5 }, (_, i) => 5 + i * 4)] *)
Definition headlineOptions : list Z :=
  map (fun i => 5 + Z.of_nat i * 4)%Z (seq 0 5).

(** The states the user interface can be in: the initial state and what the
    handlers make of it.  A handler reads the state of the render it was
    created in, so each of them is one step. *)
Inductive Reachable (rev : Revision) : AppState -> Prop :=
| ReachInitial : Reachable rev initialState
| ReachFileChange st file :
    Reachable rev st -> Reachable rev (handleFileChange rev file st)
| ReachTextChange st value :
    Reachable rev st -> Reachable rev (handleTextChange value st)
| ReachHeadlinesChange st n :
    Reachable rev st -> In n headlineOptions ->
    Reachable rev (handleHeadlinesChange n st)
| ReachAnalyze st engine transport reader :
    Reachable rev st ->
    Reachable rev (finalState (handleAnalyze rev engine transport reader st)).

End App.

Import App.

(* ================================================================== *)
(** ** Worlds and responses used in the statements *)
(* ================================================================== *)

Module Worlds.

(** An engine whose messages do not quote the offending text. *)
Definition plainEngine : Engine :=
  mkEngine
    (fun _ => lit "JSON.parse: unexpected character of the JSON data")
    (fun name => lit "can't access property '" ++ name ++ lit "' of null")
    (fun _ => lit "jsonText.replace is not a function").

(** The body of a 200 response that carries [text] as its generated text:
    [{ candidates: [{ content: { parts: [{ text }] } }] }]. *)
Definition textBody (text : jsstring) : JsValue :=
  JObj [field "candidates" (JArr [
    JObj [field "content" (JObj [field "parts" (JArr [
      JObj [(lit "text", JStr text)]])])]])].

(** The body of a blocked response: [{ candidates: [{ finishReason }] }]. *)
Definition finishBody (reason : string) : JsValue :=
  JObj [field "candidates" (JArr [JObj [field "finishReason" (jstr reason)]])].

Definition respond (body : JsValue) : FetchOutcome :=
  FetchResponse true 200 (inr body).

Definition always (o : FetchOutcome) : Transport := fun _ _ _ => o.

(** The stub that answers the calls of a submission from a list, and with
    a network failure once the list is used up. *)
Definition scripted (script : list FetchOutcome) : Transport :=
  fun attempt _ _ =>
    nth attempt script (FetchRejected (mkError (lit "Failed to fetch"))).

Definition noReader : FileReader :=
  fun _ => ReadFailed (mkError (lit "NotReadableError")).

Definition pngReader : FileReader :=
  fun _ => ReadLoaded (lit "data:image/png;base64,iVBORw0KGgo=").

Definition cowText : jsstring := lit "The cow eat grass.".

End Worlds.

Import Worlds.

(** *** What a call of the transport amounts to *)

(** The attempt fails in transport: [fetch] rejects or the status is not a
    success. *)
Definition transportFails (o : FetchOutcome) : bool :=
  match o with
  | FetchRejected _ => true
  | FetchResponse ok _ _ => negb ok
  end.

(** The error the [catch] clause sees for such an attempt. *)
Definition transportError (o : FetchOutcome) : JsError :=
  match o with
  | FetchRejected e => e
  | FetchResponse _ status _ => httpError status
  end.

(** The body of a response whose transport succeeded. *)
Definition deliveredResult (o : FetchOutcome) : option JsValue :=
  match o with
  | FetchResponse true _ (inr result) => Some result
  | _ => None
  end.

Definition isNull (v : JsValue) : bool :=
  match v with JNull => true | _ => false end.

(** Transport succeeded, there is no text content and the finish reason is
    [SAFETY]. *)
Definition isSafetyBlock (o : FetchOutcome) : bool :=
  match deliveredResult o with
  | Some result =>
      negb (isNull result) && negb (truthy (jsonTextOf result)) &&
      strictEqualsString (optProperty (firstCandidate result) (lit "finishReason"))
                         (lit "SAFETY")
  | None => false
  end.

(** Transport succeeded, there is no text content and no safety block. *)
Definition isEmptyResponse (o : FetchOutcome) : bool :=
  match deliveredResult o with
  | Some result =>
      negb (isNull result) && negb (truthy (jsonTextOf result)) &&
      negb (strictEqualsString
              (optProperty (firstCandidate result) (lit "finishReason"))
              (lit "SAFETY"))
  | None => false
  end.

(** Transport succeeded and the response carries the text [text]. *)
Definition deliversText (o : FetchOutcome) (text : jsstring) : Prop :=
  exists result,
    deliveredResult o = Some result /\
    jsonTextOf result = Some (JStr text) /\ text <> [].

(** The submission goes ahead: there is some input, and an image comes
    with the file it was read from. *)
Definition submittable (st : AppState) (base64Image : option jsstring)
    (textInput : jsstring) : Prop :=
  hasText textInput || hasImage base64Image = true /\
  (hasImage base64Image = true -> imageFile st <> None).



Definition isConsoleError (ev : Event) : bool :=
  match ev with EConsoleError _ _ => true | _ => false end.

(** The calls and waits of a run, in order, without the log lines. *)
Definition withoutLog (tr : list Event) : list Event :=
  filter (fun ev => negb (isConsoleError ev)) tr.

(** The attempt numbers of the log lines of a run, in order. *)
Fixpoint loggedAttempts (tr : list Event) : list nat :=
  match tr with
  | [] => []
  | EConsoleError n _ :: tr' => n :: loggedAttempts tr'
  | _ :: tr' => loggedAttempts tr'
  end.

(** *** 1. Firebase initialization and authentication *)

Module Auth.

Record User := mkUser { uid : jsstring }.

(** The two sign-in calls of the Firebase SDK: each rejects or resolves,
    and a call that resolves has made its user the [currentUser] of the
    auth instance.  (When the listener is called with a user, that user is
    the [currentUser].) *)
Record FirebaseAuth := mkFirebaseAuth {
  signInWithCustomToken : jsstring -> JsError + User;
  signInAnonymously : JsError + User
}.

(** [userId] and [isAuthReady]; [None] is [null] or [undefined]. *)
Record AuthState := mkAuthState {
  userId : option jsstring;
  isAuthReady : bool
}.

Inductive AuthEvent :=
| CallSignInWithCustomToken (token : jsstring)
| CallSignInAnonymously
| AuthConsoleError (label : jsstring) (e : JsError).

Record AuthRun := mkAuthRun {
  authState : AuthState;
  authTrace : list AuthEvent;
  authCompletion : Completion
}.

(** [setUserId(authInstance.currentUser?.uid); setIsAuthReady(true);] *)
Definition publishUser (currentUser : option User) (tr : list AuthEvent) : AuthRun :=
  mkAuthRun (mkAuthState (option_map uid currentUser) true) tr Returned.

(** The listener given to [onAuthStateChanged], called with [user];
    [initialAuthToken] is the token of the environment, if any. *)
Definition authStateListener (firebase : FirebaseAuth)
    (initialAuthToken : option jsstring) (user : option User) (st : AuthState)
  : AuthRun :=
  match user with
  | Some u => publishUser (Some u) []
  | None =>
      match initialAuthToken with
      | Some ((_ :: _) as token) =>
          match signInWithCustomToken firebase token with
          | inr u => publishUser (Some u) [CallSignInWithCustomToken token]
          | inl e =>
              let tr := [CallSignInWithCustomToken token;
                         AuthConsoleError (lit "Error signing in with custom token:") e;
                         CallSignInAnonymously] in
              match signInAnonymously firebase with
              | inr u => publishUser (Some u) tr
              | inl e' => mkAuthRun st tr (Threw e')
              end
          end
      | _ =>
          match signInAnonymously firebase with
          | inr u => publishUser (Some u) [CallSignInAnonymously]
          | inl e' => mkAuthRun st [CallSignInAnonymously] (Threw e')
          end
      end
  end.

Definition isSignIn (ev : AuthEvent) : bool :=
  match ev with
  | CallSignInWithCustomToken _ | CallSignInAnonymously => true
  | AuthConsoleError _ _ => false
  end.

(** [{userId || 'Authenticating...'}] *)
Definition displayedUserId (st : AuthState) : jsstring :=
  match userId st with
  | Some ((_ :: _) as id) => id
  | _ => lit "Authenticating..."
  end.

End Auth.

Import Auth.

(** *** 4. Rendering: when the Analyze button is disabled *)

(** [disabled={isLoading || (!inputText && !imageFile)}] *)
Definition analyzeDisabled (st : AppState) : bool :=
  isLoading st || (negb (hasText (inputText st)) && negb (hasFile (imageFile st))).

(** *** What the lexer keeps true *)

(** Inside a literal name, what is still to be read is a tail of [true],
    [false] or [null]. *)
Definition literalTails : list jsstring :=
  [lit "rue"; lit "ue"; lit "e"; lit "alse"; lit "lse"; lit "se";
   lit "ull"; lit "ll"; lit "l"].

Definition lexStateOk (st : LexState) : bool :=
  match st with
  | LLiteral rest _ => existsb (JsString.eqb rest) literalTails
  | _ => true
  end.

(** The code units a token can end with: a structural character, the
    closing quote of a string, the last digit of a number, the last letter
    of a literal name. *)
Definition endsToken (c : N) : bool :=
  (c =? ch "{")%N || (c =? ch "}")%N || (c =? ch "[")%N || (c =? ch "]")%N ||
  (c =? ch ":")%N || (c =? ch ",")%N || (c =? dquote)%N || isDigit c ||
  (c =? ch "e")%N || (c =? ch "l")%N.

(* ================================================================== *)
(** ** Sanity checks of the embedding *)
(* ================================================================== *)

Example cleanJsonText_fenced :
  cleanJsonText (fenceJson ++ lit "
{}
" ++ fence) = lit "{}".
Proof. reflexivity. Qed.

Example numberToString_examples :
  numberToString 0 = lit "0" /\ numberToString 13 = lit "13" /\
  numberToString (-4) = lit "-4".
Proof. repeat split; reflexivity. Qed.

Example parse_object :
  parse (jsonLit "{ 'k' : [1, -2.50e1, true, null], 's' : 'a\nAA' } ")
  = Some (JObj [(lit "k", JArr [JNum false 1 0; JNum true 250 (-1); JBool true; JNull]);
                (lit "s", JStr (lit "a" ++ [10; 65; 65]%N))]).
Proof. reflexivity. Qed.

Example parse_nested :
  parse (jsonLit "[[], {}, [{'a': [0.5E+2]}], '']")
  = Some (JArr [JArr []; JObj []; JArr [JObj [(lit "a", JArr [JNum false 5 1])]];
                JStr []]).
Proof. reflexivity. Qed.

Example parse_rejects :
  parse (lit "01") = None /\ parse (lit "[1,]") = None /\
  parse (lit "tru") = None /\ parse (lit "1.") = None /\
  parse (lit "") = None /\ parse (lit "{} x") = None /\
  parse (jsonLit "'a") = None /\ parse (jsonLit "{'a' 1}") = None /\
  parse (lit "[1 2]") = None /\ parse (lit "-") = None /\
  parse (lit "]") = None /\ parse (lit "{,}") = None.
Proof. repeat split; reflexivity. Qed.

Example truthy_numbers :
  truthy (Some (JNum false 0 5)) = false /\
  truthy (Some (JNum true 0 0)) = false /\
  truthy (Some (JNum false 7 (-3))) = true /\
  truthy (Some (JNum false 1 (-400))) = false /\
  truthy (Some (JNum false 24 (-325))) = false /\
  truthy (Some (JNum false 25 (-325))) = true.
Proof. repeat split; vm_compute; reflexivity. Qed.

Example optional_chain :
  jsonTextOf (textBody (lit "hi")) = Some (JStr (lit "hi")) /\
  jsonTextOf (finishBody "SAFETY") = None /\
  jsonTextOf (JObj []) = None /\
  jsonTextOf (JObj [field "candidates" JNull]) = None /\
  jsonTextOf (JObj [field "candidates" (jstr "ab")]) = None.
Proof. repeat split; reflexivity. Qed.

Example duplicate_member_last_wins :
  option_map (fun v => getProperty v (lit "a")) (parse (jsonLit "{'a':1,'b':2,'a':3}"))
  = Some (Some (JNum false 3 0)).
Proof. reflexivity. Qed.

Example split_data_url :
  fileToBase64 pngReader (mkFile (lit "a.png") (lit "image/png"))
  = inr (Some (lit "iVBORw0KGgo=")) /\
  nth_error (split (ch ",") (lit "nocomma")) 1 = None.
Proof. split; reflexivity. Qed.

(** The scenario of the two failures followed by a success: three calls,
    waits of 1000 and 2000, and the parsed result. *)
Example two_failures_then_success :
  let transport := scripted [FetchRejected (mkError (lit "Failed to fetch"));
                             FetchResponse false 503 (inr JNull);
                             respond (textBody (jsonLit "{'textWithErrorsHighlighted':'x'}"))] in
  let run := fetchGeminiAnalysis AppJsx plainEngine transport initialState None cowText in
  fetchCount (trace run) = 3%nat /\ delays (trace run) = [1000; 2000]%Z /\
  currentAnalysis (finalState run)
    = JObj [(lit "textWithErrorsHighlighted", JStr (lit "x"))] /\
  error (finalState run) = [] /\ isLoading (finalState run) = false /\
  completion run = Returned.
Proof. vm_compute. repeat split; reflexivity. Qed.

(** The scenario of the cow: the instruction carries the count and the
    text, and five pairs come back as five headlines. *)
Example cow_scenario :
  let reply := jsonLit "```json
{'textWithErrorsHighlighted':'The cow <span class=\'error-highlight\'>eat</span> grass.',
 'suggestedCorrections':[{'originalError':'eat','correctedText':'eats'}],
 'headlinesAndSubheadlines':[{'headlineHindi':'a','subheadlineHindi':'b'},
   {'headlineHindi':'c','subheadlineHindi':'d'},{'headlineHindi':'e','subheadlineHindi':'f'},
   {'headlineHindi':'g','subheadlineHindi':'h'},{'headlineHindi':'i','subheadlineHindi':'j'}]}
```" in
  let st := handleHeadlinesChange 5 (handleTextChange cowText initialState) in
  let run := handleAnalyze AppJsx plainEngine (always (respond (textBody reply))) noReader st in
  match trace run with
  | [EFetch url body] =>
      url = API_URL_TEXT /\
      option_map (includes (lit "Provide 5 sets")) (instructionText body) = Some true /\
      option_map (includes cowText) (instructionText body) = Some true
  | _ => False
  end /\
  option_map (fun v => getProperty v (lit "length"))
    (getProperty (currentAnalysis (finalState run)) (lit "headlinesAndSubheadlines"))
  = Some (Some (JNum false 5 0)).
Proof. vm_compute. repeat split; reflexivity. Qed.

Example parse_unicode_escape :
  parse (jsonLit "'\u0041\u00e9\u0928\\\/\t'") = Some (JStr [65; 233; 2344; 92; 47; 9]%N).
Proof. reflexivity. Qed.

(* ================================================================== *)
(** ** The retry loop *)
(* ================================================================== *)

Arguments lit : simpl never.
Arguments numberToString : simpl never.



Section RetryLoop.

Variable rev : Revision.
Variable engine : Engine.
Variable transport : Transport.
Variable apiUrl : jsstring.
Variable payload : Payload.

Local Abbreviation outcome attempt := (transport attempt%nat apiUrl payload).
Local Abbreviation loop := (retryLoop engine transport apiUrl payload).

(** One failed iteration: the call, the log line, the wait when another
    attempt is left, and then the rest of the loop. *)
Lemma retryLoop_failed_attempt remaining attempt lastError st e :
  tryBlock engine (outcome attempt) = inl e ->
  let rest := loop remaining (S attempt) (Some e) st in
  loop (S remaining) attempt lastError st =
  mkRun (finalState rest)
        (EFetch apiUrl payload :: EConsoleError (attempt + 1) e ::
         (if (attempt <? maxRetries - 1)%nat then [ETimeout (backoffDelay attempt)] else [])
         ++ trace rest)
        (completion rest).
Proof.
  intros Hfail. simpl. rewrite Hfail. reflexivity.
Qed.

(** A successful iteration ends the loop. *)
Lemma retryLoop_success remaining attempt lastError st parsedJson :
  tryBlock engine (outcome attempt) = inr parsedJson ->
  loop (S remaining) attempt lastError st =
  mkRun (setIsLoading false (setCurrentAnalysis parsedJson st))
        [EFetch apiUrl payload] Returned.
Proof.
  intros Hok. simpl. rewrite Hok. reflexivity.
Qed.

(** Every call of the loop goes to the same address with the same body. *)
Lemma retryLoop_calls remaining : forall attempt lastError st url body,
  In (EFetch url body) (trace (loop remaining attempt lastError st)) ->
  url = apiUrl /\ body = payload.
Proof.
  induction remaining as [|remaining IH]; intros attempt lastError st url body Hin.
  - simpl in Hin. unfold afterLoop in Hin. destruct lastError; simpl in Hin; contradiction.
  - simpl in Hin.
    destruct (tryBlock engine (transport attempt apiUrl payload)) as [e|v]; simpl in Hin.
    + match type of Hin with
      | context [if ?c then _ else _] => destruct c
      end; simpl in Hin;
      repeat (destruct Hin as [Hin|Hin]; try discriminate);
      try (inversion Hin; auto; fail); eapply IH; eauto.
    + destruct Hin as [Heq|[]]. inversion Heq; auto.
Qed.

(** The loop writes [isLoading], [currentAnalysis] and [error] only. *)
Lemma retryLoop_keeps_input remaining : forall attempt lastError st,
  let st' := finalState (loop remaining attempt lastError st) in
  inputText st' = inputText st /\ imageFile st' = imageFile st /\
  numHeadlines st' = numHeadlines st.
Proof.
  induction remaining as [|remaining IH]; intros attempt lastError st; simpl.
  - unfold afterLoop. destruct lastError; simpl; auto.
  - destruct (tryBlock engine (transport attempt apiUrl payload)); simpl; auto.
Qed.

(** An attempt that fails in transport is caught with the transport's
    error. *)
Lemma tryBlock_transport_failure o :
  transportFails o = true -> tryBlock engine o = inl (transportError o).
Proof.
  destruct o as [e|ok status json]; simpl; intros H; [reflexivity|].
  rewrite H. reflexivity.
Qed.

Lemma failureMessage_three e :
  failureMessage e = lit "Analysis failed after 3 attempts. Error: " ++ message e.
Proof. reflexivity. Qed.

(** Three failed iterations in a row, whatever the failures are. *)
Lemma retryLoop_three_failures st e0 e1 e2 :
  tryBlock engine (outcome 0) = inl e0 ->
  tryBlock engine (outcome 1) = inl e1 ->
  tryBlock engine (outcome 2) = inl e2 ->
  loop maxRetries 0%nat None st =
  mkRun (setError (failureMessage e2) (setIsLoading false st))
        [EFetch apiUrl payload; EConsoleError 1 e0; ETimeout 1000;
         EFetch apiUrl payload; EConsoleError 2 e1; ETimeout 2000;
         EFetch apiUrl payload; EConsoleError 3 e2]
        Returned.
Proof.
  intros H0 H1 H2. unfold maxRetries.
  rewrite (retryLoop_failed_attempt _ _ _ _ H0).
  rewrite (retryLoop_failed_attempt _ _ _ _ H1).
  rewrite (retryLoop_failed_attempt _ _ _ _ H2).
  reflexivity.
Qed.



End RetryLoop.

(** A submission that goes ahead runs the loop on one request, from the
    state [beginAnalysis] leaves. *)
Lemma fetchGeminiAnalysis_runs_loop rev engine transport st base64Image textInput :
  submittable st base64Image textInput ->
  exists apiUrl payload,
    fetchGeminiAnalysis rev engine transport st base64Image textInput
    = retryLoop engine transport apiUrl payload maxRetries 0 None (beginAnalysis rev st) /\
    exists t, instructionText payload = Some t /\
      (t = prompt rev (numHeadlines st) textInput \/
       t = imagePrompt (prompt rev (numHeadlines st) textInput)).
Proof.
  intros [Hinput Hfile]. unfold fetchGeminiAnalysis.
  assert (Hnum : numHeadlines (beginAnalysis rev st) = numHeadlines st)
    by (destruct rev; reflexivity).
  assert (Himg : imageFile (beginAnalysis rev st) = imageFile st)
    by (destruct rev; reflexivity).
  replace (negb (hasText textInput) && negb (hasImage base64Image)) with false
    by (destruct (hasText textInput), (hasImage base64Image); simpl in *; congruence).
  rewrite Hnum, Himg.
  destruct base64Image as [[|c data]|].
  - eexists; eexists; split; [reflexivity|]. eexists; split; [reflexivity|auto].
  - destruct (imageFile st) as [file|] eqn:Hf.
    + eexists; eexists; split; [reflexivity|]. eexists; split; [reflexivity|auto].
    + exfalso. apply Hfile; reflexivity.
  - eexists; eexists; split; [reflexivity|]. eexists; split; [reflexivity|auto].
Qed.

(* ================================================================== *)
(** ** Facts about strings *)
(* ================================================================== *)

Lemma startsWith_app p s : startsWith p (p ++ s) = true.
Proof.
  induction p as [|x p IH]; simpl; [reflexivity|].
  rewrite N.eqb_refl, IH. reflexivity.
Qed.

Lemma includes_app_l needle a b :
  includes needle b = true -> includes needle (a ++ b) = true.
Proof.
  intros H. induction a as [|x a IH]; simpl; [assumption|].
  rewrite IH. apply orb_true_r.
Qed.

Lemma includes_middle needle a b : includes needle (a ++ needle ++ b) = true.
Proof.
  apply includes_app_l. destruct needle; [destruct b; reflexivity|].
  simpl. rewrite N.eqb_refl, startsWith_app. reflexivity.
Qed.

(* ================================================================== *)
(** ** Retry policy *)
(* ================================================================== *)

(** C1.  When every attempt fails in transport (the call rejects or the
    status is not a success), a submission makes exactly three outbound
    calls; it waits 1000 after the first failure and 2000 after the second,
    with no wait before the first call or after the last; and it ends with
    the error "Analysis failed after 3 attempts. Error: ..." carrying the
    message of the last failure. *)
Theorem transport_failures_exhaust_three_attempts :
  forall rev engine transport st base64Image textInput,
    submittable st base64Image textInput ->
    (forall attempt url body, transportFails (transport attempt url body) = true) ->
    let run := fetchGeminiAnalysis rev engine transport st base64Image textInput in
    exists url body,
      let e (attempt : nat) := transportError (transport attempt url body) in
      trace run = [EFetch url body; EConsoleError 1 (e 0%nat); ETimeout 1000;
                   EFetch url body; EConsoleError 2 (e 1%nat); ETimeout 2000;
                   EFetch url body; EConsoleError 3 (e 2%nat)] /\
      fetchCount (trace run) = 3%nat /\
      delays (trace run) = [1000; 2000]%Z /\
      error (finalState run)
        = lit "Analysis failed after 3 attempts. Error: " ++ message (e 2%nat) /\
      isLoading (finalState run) = false /\
      completion run = Returned.
Proof.
  intros rev engine transport st base64Image textInput Hsub Hfail run.
  destruct (fetchGeminiAnalysis_runs_loop rev engine transport Hsub)
    as (url & body & Hrun & _).
  exists url, body. subst run. rewrite Hrun.
  rewrite (retryLoop_three_failures engine transport url body _
             (tryBlock_transport_failure engine _ (Hfail 0%nat url body))
             (tryBlock_transport_failure engine _ (Hfail 1%nat url body))
             (tryBlock_transport_failure engine _ (Hfail 2%nat url body))).
  repeat split; reflexivity.
Qed.

Lemma transport_failures_exhaust_three_attempts_witness :
  let run := fetchGeminiAnalysis AppJsx plainEngine
               (always (FetchResponse false 503 (inr JNull))) initialState None cowText in
  fetchCount (trace run) = 3%nat /\ delays (trace run) = [1000; 2000]%Z /\
  error (finalState run)
    = lit "Analysis failed after 3 attempts. Error: HTTP error! status: 503".
Proof.
  destruct (transport_failures_exhaust_three_attempts AppJsx plainEngine
              (always (FetchResponse false 503 (inr JNull)))
              (st := initialState) (base64Image := None) (textInput := cowText))
    as (url & body & _ & Hcount & Hdelays & Herror & _).
  - split; [reflexivity | discriminate].
  - reflexivity.
  - split; [exact Hcount | split; [exact Hdelays | exact Herror]].
Defined.

(* ================================================================== *)
(** ** Refusing an empty submission *)
(* ================================================================== *)

(** C4.  When both the text and the image are absent (an empty text; no
    image data or empty image data), the pipeline sets the error "Please
    provide text or an image to analyze." and makes no outbound call: its
    trace is empty and the rest of the state is untouched.  The same holds
    one level up, where [handleAnalyze] refuses an empty text input without
    a selected file. *)
Theorem empty_submission_is_refused :
  forall rev engine transport reader st base64Image,
    hasImage base64Image = false ->
    fetchGeminiAnalysis rev engine transport st base64Image []
    = mkRun (setError (lit "Please provide text or an image to analyze.") st) [] Returned /\
    fetchCount (trace (fetchGeminiAnalysis rev engine transport st base64Image [])) = 0%nat /\
    (inputText st = [] -> imageFile st = None ->
     handleAnalyze rev engine transport reader st
     = mkRun (setError (lit "Please paste text or select an image.") st) [] Returned).
Proof.
  intros rev engine transport reader st base64Image Himg.
  assert (Hrun : fetchGeminiAnalysis rev engine transport st base64Image []
                 = mkRun (setError (lit "Please provide text or an image to analyze.") st)
                         [] Returned).
  { unfold fetchGeminiAnalysis. simpl hasText. rewrite Himg. reflexivity. }
  split; [exact Hrun|]. split; [rewrite Hrun; reflexivity|].
  intros Htext Hfile. unfold handleAnalyze. rewrite Htext, Hfile. reflexivity.
Qed.

Lemma empty_submission_is_refused_witness :
  trace (fetchGeminiAnalysis AppJsx plainEngine (always (respond JNull))
           initialState (Some []) []) = [] /\
  error (finalState (handleAnalyze AppJsx plainEngine (always (respond JNull))
                       noReader initialState))
  = lit "Please paste text or select an image.".
Proof.
  destruct (empty_submission_is_refused AppJsx plainEngine (always (respond JNull))
              noReader initialState (Some []) eq_refl) as (Hrun & _ & Hanalyze).
  split.
  - rewrite Hrun. reflexivity.
  - rewrite (Hanalyze eq_refl eq_refl). reflexivity.
Defined.

(* ================================================================== *)
(** ** The headline count *)
(* ================================================================== *)

(** C9.  The selector offers exactly the values 5, 9, 13, 17 and 21 (5 + 4i
    for i = 0..4); 25 is not among them, and neither is the initial count
    10. *)
Theorem headline_options_are_5_9_13_17_21 :
  headlineOptions = [5; 9; 13; 17; 21]%Z /\
  headlineOptions = map (fun i => 5 + 4 * Z.of_nat i)%Z [0; 1; 2; 3; 4]%nat /\
  ~ In 25%Z headlineOptions /\
  numHeadlines initialState = 10%Z /\
  ~ In 10%Z headlineOptions.
Proof.
  repeat split; try reflexivity;
    unfold headlineOptions; simpl; intros H;
    repeat (destruct H as [H|H]; try discriminate); exact H.
Qed.

(** Whatever the input, every call of a submission carries the prompt, or
    the prompt behind the transcription directive, as its instruction. *)
Lemma fetchGeminiAnalysis_calls rev engine transport st base64Image textInput url body :
  In (EFetch url body)
     (trace (fetchGeminiAnalysis rev engine transport st base64Image textInput)) ->
  exists t, instructionText body = Some t /\
    (t = prompt rev (numHeadlines st) textInput \/
     t = imagePrompt (prompt rev (numHeadlines st) textInput)).
Proof.
  intros Hin.
  destruct (hasText textInput || hasImage base64Image) eqn:Hinput.
  - destruct (hasImage base64Image) eqn:Himg.
    + destruct (imageFile st) as [file|] eqn:Hfile.
      * assert (Hsub : submittable st base64Image textInput)
          by (split; [rewrite Himg; assumption | intros _; congruence]).
        destruct (fetchGeminiAnalysis_runs_loop rev engine transport Hsub)
          as (apiUrl & payload & Hrun & Htext).
        rewrite Hrun in Hin. apply retryLoop_calls in Hin. destruct Hin as [_ ->].
        exact Htext.
      * exfalso. unfold fetchGeminiAnalysis in Hin. rewrite Himg, andb_false_r in Hin.
        destruct base64Image as [[|c data]|]; try discriminate.
        replace (imageFile (beginAnalysis rev st)) with (imageFile st) in Hin
          by (destruct rev; reflexivity).
        rewrite Hfile in Hin. exact Hin.
    + assert (Hsub : submittable st base64Image textInput)
        by (split; [rewrite Himg; assumption | intros H; congruence]).
      destruct (fetchGeminiAnalysis_runs_loop rev engine transport Hsub)
        as (apiUrl & payload & Hrun & Htext).
      rewrite Hrun in Hin. apply retryLoop_calls in Hin. destruct Hin as [_ ->].
      exact Htext.
  - exfalso. unfold fetchGeminiAnalysis in Hin.
    apply orb_false_elim in Hinput. destruct Hinput as [H1 H2].
    rewrite H1, H2 in Hin. exact Hin.
Qed.

(** C8.  With a headline count N between 5 and 25, the instruction text of
    every payload handed to the transport contains the decimal numeral of
    N. *)
Theorem instruction_contains_headline_count :
  forall rev engine transport st base64Image textInput (N : Z),
    (5 <= N <= 25)%Z ->
    numHeadlines st = N ->
    forall url body,
      In (EFetch url body)
         (trace (fetchGeminiAnalysis rev engine transport st base64Image textInput)) ->
      exists t, instructionText body = Some t /\ includes (numberToString N) t = true.
Proof.
  intros rev engine transport st base64Image textInput N _ HN url body Hin.
  apply fetchGeminiAnalysis_calls in Hin. destruct Hin as (t & Ht & Hcases).
  exists t. split; [exact Ht|]. rewrite HN in Hcases.
  destruct Hcases as [-> | ->].
  - unfold prompt. apply includes_middle.
  - unfold imagePrompt, prompt. apply includes_app_l, includes_middle.
Qed.

Lemma instruction_contains_headline_count_witness :
  exists t,
    instructionText (buildPayload AppJsx [mkContent [TextPart (prompt AppJsx 13 cowText)]]
                                  (prompt AppJsx 13 cowText)) = Some t /\
    includes (lit "13") t = true.
Proof.
  apply (@instruction_contains_headline_count AppJsx plainEngine
           (always (respond (textBody (lit "{}"))))
           (handleHeadlinesChange 13 initialState) None cowText
           13%Z ltac:(lia) eq_refl API_URL_TEXT).
  left. reflexivity.
Defined.

(* ================================================================== *)
(** ** Image submissions *)
(* ================================================================== *)

(** A submission leaves the inputs as they are. *)
Lemma fetchGeminiAnalysis_keeps_input rev engine transport st base64Image textInput :
  let st' := finalState (fetchGeminiAnalysis rev engine transport st base64Image textInput) in
  inputText st' = inputText st /\ imageFile st' = imageFile st /\
  numHeadlines st' = numHeadlines st.
Proof.
  assert (Hbegin : inputText (beginAnalysis rev st) = inputText st /\
                   imageFile (beginAnalysis rev st) = imageFile st /\
                   numHeadlines (beginAnalysis rev st) = numHeadlines st)
    by (destruct rev; auto).
  destruct Hbegin as (Ht & Hf & Hn).
  unfold fetchGeminiAnalysis.
  destruct (negb (hasText textInput) && negb (hasImage base64Image)); [simpl; auto|].
  destruct base64Image as [[|c data]|];
    try destruct (imageFile (beginAnalysis rev st)) as [file|] eqn:Hfile;
    try (simpl; rewrite ?Hfile; auto; fail);
    match goal with
    | |- context [retryLoop ?e ?t ?u ?p ?r ?a ?l ?s] =>
        destruct (retryLoop_keeps_input e t u p r a l s) as (H1 & H2 & H3);
        rewrite H1, H2, H3; repeat split; congruence
    end.
Qed.

Lemma handleAnalyze_keeps_input rev engine transport reader st :
  let st' := finalState (handleAnalyze rev engine transport reader st) in
  inputText st' = inputText st /\ imageFile st' = imageFile st.
Proof.
  unfold handleAnalyze.
  destruct (negb (hasText (inputText st)) && negb (hasFile (imageFile st)));
    [simpl; auto|].
  destruct (imageFile st) as [file|] eqn:Hfile.
  - destruct (fileToBase64 reader file) as [e|base64]; [simpl; auto|].
    rewrite <- Hfile.
    destruct (fetchGeminiAnalysis_keeps_input rev engine transport st base64 (inputText st))
      as (H1 & H2 & _). auto.
  - rewrite <- Hfile.
    destruct (fetchGeminiAnalysis_keeps_input rev engine transport st None (inputText st))
      as (H1 & H2 & _). auto.
Qed.

(** While an image file is selected, the text input holds its placeholder. *)
Lemma placeholder_invariant rev st :
  Reachable rev st ->
  forall file, imageFile st = Some file ->
               inputText st = imagePlaceholder rev (fileName file).
Proof.
  induction 1 as [|st file' _ _|st value _ _|st n _ IH _|st engine transport reader _ IH];
    intros file Hfile.
  - discriminate.
  - destruct file' as [f|]; simpl in *; [|discriminate].
    inversion Hfile; subst. reflexivity.
  - discriminate.
  - apply IH. exact Hfile.
  - destruct (handleAnalyze_keeps_input rev engine transport reader st) as (Ht & Hf).
    rewrite Ht. apply IH. rewrite <- Hf. exact Hfile.
Qed.



(* ================================================================== *)
(** ** Responses without a usable result *)
(* ================================================================== *)

Section Classification.

Variable engine : Engine.

(** A response without text is caught as the safety error when its finish
    reason is SAFETY, and as the empty-content error otherwise. *)
Lemma tryBlock_safety_block o :
  isSafetyBlock o = true -> tryBlock engine o = inl safetyError.
Proof.
  unfold isSafetyBlock.
  destruct o as [e|[|] status [e|result]]; simpl; try discriminate.
  intros H. apply andb_prop in H. destruct H as [H Hsafety].
  apply andb_prop in H. destruct H as [Hnull Htext].
  unfold readResult. rewrite Htext, Hsafety.
  destruct result; simpl in *; try reflexivity; discriminate.
Qed.

Lemma tryBlock_empty_response o :
  isEmptyResponse o = true -> tryBlock engine o = inl emptyError.
Proof.
  unfold isEmptyResponse.
  destruct o as [e|[|] status [e|result]]; simpl; try discriminate.
  intros H. apply andb_prop in H. destruct H as [H Hsafety].
  apply andb_prop in H. destruct H as [Hnull Htext].
  apply negb_true_iff in Hsafety.
  unfold readResult. rewrite Htext, Hsafety.
  destruct result; simpl in *; try reflexivity; discriminate.
Qed.

(** A response with text is parsed after cleaning; a parse failure is
    caught as the SyntaxError of the engine. *)
Lemma tryBlock_text o text :
  deliversText o text ->
  tryBlock engine o =
  match Json.parse (cleanJsonText text) with
  | Some parsedJson => inr parsedJson
  | None => inl (mkError (syntaxErrorMessage engine (cleanJsonText text)))
  end.
Proof.
  intros (result & Hdelivered & Htext & Hnonempty).
  destruct o as [e|[|] status [e|r]]; simpl in Hdelivered; try discriminate.
  inversion Hdelivered; subst r. simpl. unfold readResult. rewrite Htext.
  destruct text as [|c text]; [contradiction|]. simpl.
  destruct result; try reflexivity. discriminate.
Qed.

(** Conversely the [try] block succeeds only on a response with text that
    parses after cleaning. *)
Lemma tryBlock_success o parsedJson :
  tryBlock engine o = inr parsedJson ->
  exists text, deliversText o text /\ Json.parse (cleanJsonText text) = Some parsedJson.
Proof.
  destruct o as [e|[|] status [e|result]]; simpl; try discriminate.
  unfold readResult. intros H.
  assert (Hcases : exists text, jsonTextOf result = Some (JStr text) /\ text <> [] /\
                     Json.parse (cleanJsonText text) = Some parsedJson).
  { destruct result; try discriminate;
      (destruct (truthy (jsonTextOf _)) eqn:Htruthy; simpl in H;
       [|destruct (strictEqualsString _ _); discriminate]);
      (destruct (jsonTextOf _) as [[| | |text| |]|] eqn:Htext; try discriminate);
      (exists text; split; [reflexivity|]; split;
       [intros ->; discriminate|];
       destruct (Json.parse (cleanJsonText text)); [congruence|discriminate]). }
  destruct Hcases as (text & Htext & Hne & Hparse).
  exists text. split; [|exact Hparse]. exists result. auto.
Qed.

End Classification.

(** Whatever makes the first attempt fail, the pipeline logs it, waits 1000
    and calls again. *)
Lemma first_failure_is_retried rev engine transport st base64Image textInput e :
  submittable st base64Image textInput ->
  (forall url body, tryBlock engine (transport 0%nat url body) = inl e) ->
  exists url body rest,
    trace (fetchGeminiAnalysis rev engine transport st base64Image textInput)
    = EFetch url body :: EConsoleError 1 e :: ETimeout 1000 :: EFetch url body :: rest.
Proof.
  intros Hsub Hfail.
  destruct (fetchGeminiAnalysis_runs_loop rev engine transport Hsub)
    as (url & body & Hrun & _).
  exists url, body. rewrite Hrun. unfold maxRetries.
  rewrite (retryLoop_failed_attempt engine transport url body _ _ _ _ (Hfail url body)).
  cbn [trace]. simpl.
  destruct (tryBlock engine (transport 1%nat url body)); simpl; eexists; reflexivity.
Qed.

(** When all three attempts fail with the same error, the pipeline stops
    after the third call and reports that error. *)
Lemma repeated_failure_is_reported rev engine transport st base64Image textInput e :
  submittable st base64Image textInput ->
  (forall attempt url body, tryBlock engine (transport attempt url body) = inl e) ->
  let run := fetchGeminiAnalysis rev engine transport st base64Image textInput in
  fetchCount (trace run) = 3%nat /\
  error (finalState run) = lit "Analysis failed after 3 attempts. Error: " ++ message e.
Proof.
  intros Hsub Hfail run.
  destruct (fetchGeminiAnalysis_runs_loop rev engine transport Hsub)
    as (url & body & Hrun & _).
  subst run. rewrite Hrun.
  rewrite (retryLoop_three_failures engine transport url body _
             (Hfail 0%nat url body) (Hfail 1%nat url body) (Hfail 2%nat url body)).
  split; reflexivity.
Qed.

(** C2, as the code has it.  A first response that completes transport
    with finish reason SAFETY and no text is caught as the error "AI output
    was blocked due to safety settings..." and is retried like any other
    failed attempt: the pipeline waits 1000 and makes a second call.  When
    every response is such a block, it stops after three calls and reports
    that error behind "Analysis failed after 3 attempts. Error: ". *)
Theorem safety_block_is_retried :
  forall rev engine transport st base64Image textInput,
    submittable st base64Image textInput ->
    (forall url body, isSafetyBlock (transport 0%nat url body) = true) ->
    let run := fetchGeminiAnalysis rev engine transport st base64Image textInput in
    (exists url body rest,
        trace run = EFetch url body :: EConsoleError 1 safetyError :: ETimeout 1000 ::
                    EFetch url body :: rest) /\
    ((forall attempt url body, isSafetyBlock (transport attempt url body) = true) ->
     fetchCount (trace run) = 3%nat /\
     error (finalState run)
     = lit "Analysis failed after 3 attempts. Error: " ++ message safetyError).
Proof.
  intros rev engine transport st base64Image textInput Hsub Hfirst run. split.
  - apply first_failure_is_retried; [exact Hsub|].
    intros url body. apply tryBlock_safety_block, Hfirst.
  - intros Hall. apply repeated_failure_is_reported; [exact Hsub|].
    intros attempt url body. apply tryBlock_safety_block, Hall.
Qed.

Lemma safety_block_is_retried_witness :
  let run := fetchGeminiAnalysis AppJsx plainEngine
               (always (respond (finishBody "SAFETY"))) initialState None cowText in
  fetchCount (trace run) = 3%nat /\
  error (finalState run)
  = lit "Analysis failed after 3 attempts. Error: AI output was blocked due to safety settings. Please adjust the input text.".
Proof.
  destruct (@safety_block_is_retried AppJsx plainEngine
              (always (respond (finishBody "SAFETY"))) initialState None cowText)
    as (_ & Hall).
  - split; [reflexivity | discriminate].
  - reflexivity.
  - apply Hall. reflexivity.
Defined.

(** C2 as stated fails: with a transport whose every response is a safety
    block, the submission makes three calls, not one. *)
Lemma safety_block_single_call_counterexample :
  let o := respond (finishBody "SAFETY") in
  let run := fetchGeminiAnalysis AppJsx plainEngine (always o) initialState None cowText in
  isSafetyBlock o = true /\
  fetchCount (trace run) = 3%nat /\
  fetchCount (trace run) <> 1%nat /\
  delays (trace run) = [1000; 2000]%Z.
Proof. vm_compute. repeat split; try reflexivity. discriminate. Qed.




(* ================================================================== *)
(** ** The result of a successful submission *)
(* ================================================================== *)

(** How the loop ends: at the first iteration whose [try] block succeeds,
    with the parsed value stored; or, when none does, in the statements
    after the loop with the last error. *)
Lemma retryLoop_result engine transport apiUrl payload remaining :
  forall attempt lastError st,
    let run := retryLoop engine transport apiUrl payload remaining attempt lastError st in
    (exists k parsedJson,
        (k < remaining)%nat /\
        tryBlock engine (transport (attempt + k)%nat apiUrl payload) = inr parsedJson /\
        finalState run = setIsLoading false (setCurrentAnalysis parsedJson st) /\
        completion run = Returned) \/
    (exists last,
        finalState run = finalState (afterLoop engine last st) /\
        completion run = completion (afterLoop engine last st) /\
        (lastError <> None \/ (0 < remaining)%nat -> last <> None)).
Proof.
  induction remaining as [|remaining IH]; intros attempt lastError st; cbn zeta.
  - right. exists lastError. simpl. repeat split. intros [H|H]; [exact H | lia].
  - simpl. destruct (tryBlock engine (transport attempt apiUrl payload)) as [e|v] eqn:Htry.
    + destruct (IH (S attempt) (Some e) st) as [(k & v & Hk & Hv & Hst & Hc)|(last & Hst & Hc & Hlast)].
      * left. exists (S k), v. repeat split; try assumption; try lia.
        replace (attempt + S k)%nat with (S attempt + k)%nat by lia. exact Hv.
      * right. exists last. simpl. repeat split; try assumption.
        intros _. apply Hlast. left. discriminate.
    + left. exists 0%nat, v. rewrite Nat.add_0_r. repeat split; auto. lia.
Qed.

Lemma failureMessage_nonempty e : failureMessage e <> [].
Proof. rewrite failureMessage_three. discriminate. Qed.

(** C7, as the code has it.  A submission that succeeds (it returns with no
    error set) stores the value parsed from the cleaned text of a response,
    unchanged: every field of the stored result is the field of the parsed
    JSON, and a field that is absent from the parsed JSON is absent
    (undefined) in the result. *)
Theorem successful_result_is_parsed_json_unchanged :
  forall rev engine transport st base64Image textInput,
    submittable st base64Image textInput ->
    let run := fetchGeminiAnalysis rev engine transport st base64Image textInput in
    completion run = Returned ->
    error (finalState run) = [] ->
    exists url body attempt text parsedJson,
      (attempt < maxRetries)%nat /\
      deliversText (transport attempt url body) text /\
      Json.parse (cleanJsonText text) = Some parsedJson /\
      currentAnalysis (finalState run) = parsedJson /\
      (forall name, getProperty (currentAnalysis (finalState run)) name
                    = getProperty parsedJson name) /\
      (forall name, getProperty parsedJson name = None ->
                    getProperty (currentAnalysis (finalState run)) name = None).
Proof.
  intros rev engine transport st base64Image textInput Hsub run Hreturned Herror.
  destruct (fetchGeminiAnalysis_runs_loop rev engine transport Hsub)
    as (url & body & Hrun & _).
  subst run. rewrite Hrun in *.
  destruct (retryLoop_result engine transport url body maxRetries 0 None
              (beginAnalysis rev st))
    as [(k & v & Hk & Hv & Hst & _)|(last & Hst & _ & Hlast)].
  - destruct (tryBlock_success engine _ Hv) as (text & Htext & Hparse).
    exists url, body, k, text, v. rewrite Hst.
    repeat split; try assumption; try reflexivity. intros name H. exact H.
  - exfalso. destruct last as [e|].
    + rewrite Hst in Herror. simpl in Herror. exact (failureMessage_nonempty Herror).
    + apply Hlast; [right; unfold maxRetries; lia | reflexivity].
Qed.

Lemma successful_result_is_parsed_json_unchanged_witness :
  exists url body attempt text parsedJson,
    (attempt < maxRetries)%nat /\
    deliversText (always (respond (textBody (lit "{}"))) attempt url body) text /\
    Json.parse (cleanJsonText text) = Some parsedJson /\
    currentAnalysis (finalState (fetchGeminiAnalysis AppJsx plainEngine
                                   (always (respond (textBody (lit "{}"))))
                                   initialState None cowText)) = parsedJson.
Proof.
  destruct (@successful_result_is_parsed_json_unchanged AppJsx plainEngine
              (always (respond (textBody (lit "{}")))) initialState None cowText)
    as (url & body & attempt & text & parsedJson & H1 & H2 & H3 & H4 & _).
  - split; [reflexivity | discriminate].
  - reflexivity.
  - reflexivity.
  - exists url, body, attempt, text, parsedJson. auto.
Defined.

(** C7 as stated fails: a response whose text is the empty object succeeds,
    and the array fields are then undefined in the result, not empty
    arrays. *)
Lemma absent_array_fields_stay_undefined_counterexample :
  let run := fetchGeminiAnalysis AppJsx plainEngine
               (always (respond (textBody (lit "{}")))) initialState None cowText in
  completion run = Returned /\
  error (finalState run) = [] /\
  fetchCount (trace run) = 1%nat /\
  currentAnalysis (finalState run) = JObj [] /\
  getProperty (currentAnalysis (finalState run)) (lit "suggestedCorrections") = None /\
  getProperty (currentAnalysis (finalState run)) (lit "headlinesAndSubheadlines") = None /\
  getProperty (currentAnalysis (finalState run)) (lit "headlinesAndSubheadlines")
  <> Some (JArr []).
Proof. vm_compute. repeat split; try reflexivity. discriminate. Qed.

(* ================================================================== *)
(** ** Cleaning the response text *)
(* ================================================================== *)

Lemma startsWith_app_l p a b : startsWith p a = true -> startsWith p (a ++ b) = true.
Proof.
  revert a. induction p as [|x p IH]; intros [|y a]; simpl; try discriminate; auto.
  intros H. apply andb_prop in H. destruct H as [-> H]. simpl. auto.
Qed.

Lemma includes_app_r needle a b :
  includes needle a = true -> includes needle (a ++ b) = true.
Proof.
  induction a as [|x a IH]; simpl.
  - rewrite orb_false_r. intros H. destruct needle; [|discriminate].
    destruct b; reflexivity.
  - intros H. apply orb_prop in H. destruct H as [H|H].
    + change (x :: a ++ b) with ((x :: a) ++ b).
      rewrite (startsWith_app_l _ (x :: a) b H). reflexivity.
    + rewrite (IH H). apply orb_true_r.
Qed.

(** A part of a text without the needle has no needle. *)
Lemma includes_part needle a b c :
  includes needle (a ++ b ++ c) = false -> includes needle b = false.
Proof.
  intros H. destruct (includes needle b) eqn:Hb; [|reflexivity].
  rewrite (includes_app_l needle a (b ++ c) (includes_app_r needle b c Hb)) in H.
  discriminate.
Qed.

Lemma startsWith_fenceJson_fence s :
  startsWith fenceJson s = true -> startsWith fence s = true.
Proof.
  destruct s as [|a [|b [|c s]]]; simpl; try discriminate;
    repeat rewrite ?andb_false_r; try discriminate.
  intros H. repeat (apply andb_prop in H; destruct H as [? H]).
  repeat (apply andb_true_intro; split); auto.
Qed.

(** Dropping the rest of a match is the same as resuming after it. *)
Lemma replaceFences_skip s : forall k,
  replaceFences k s = replaceFences 0 (skipn k s).
Proof.
  induction s as [|c r IH]; intros [|k]; try reflexivity.
  simpl skipn. rewrite <- IH. reflexivity.
Qed.

Lemma replaceFences_no_match c r :
  startsWith fence (c :: r) = false ->
  replaceFences 0 (c :: r) = c :: replaceFences 0 r.
Proof.
  intros H. cbn [replaceFences].
  destruct (startsWith fenceJson (c :: r)) eqn:Hj.
  - apply startsWith_fenceJson_fence in Hj. congruence.
  - rewrite H. reflexivity.
Qed.

Lemma replaceFences_match_json s :
  startsWith fenceJson s = true ->
  replaceFences 0 s = replaceFences 0 (skipn 7 s).
Proof.
  destruct s as [|c r]; [discriminate|]. intros H.
  cbn [replaceFences]. rewrite H. rewrite replaceFences_skip. reflexivity.
Qed.

Lemma replaceFences_match_fence s :
  startsWith fenceJson s = false -> startsWith fence s = true ->
  replaceFences 0 s = replaceFences 0 (skipn 3 s).
Proof.
  destruct s as [|c r]; [discriminate|]. intros Hj H.
  cbn [replaceFences]. rewrite Hj, H. rewrite replaceFences_skip. reflexivity.
Qed.

Lemma replaceFences_identity s :
  includes fence s = false -> replaceFences 0 s = s.
Proof.
  intros H. induction s as [|c r IH]; [reflexivity|].
  cbn [includes] in H. apply orb_false_elim in H. destruct H as [Hhere Hrest].
  rewrite replaceFences_no_match by exact Hhere.
  rewrite IH by exact Hrest. reflexivity.
Qed.

(** X1.  A text without any fence marker is only trimmed. *)
Theorem cleaning_without_fence_is_trim :
  forall s, includes fence s = false -> cleanJsonText s = trim s.
Proof.
  intros s H. unfold cleanJsonText. f_equal.
  apply replaceFences_identity. exact H.
Qed.

Lemma cleaning_without_fence_is_trim_witness :
  cleanJsonText (lit "  {}
") = lit "{}".
Proof.
  rewrite (cleaning_without_fence_is_trim (lit "  {}
") eq_refl). reflexivity.
Defined.

(** Two backticks at the head of the cleaned text were already at the head
    of the text. *)
Lemma replaceFences_two_backticks r :
  startsWith [backtick; backtick] r = false ->
  startsWith [backtick; backtick] (replaceFences 0 r) = false.
Proof.
  destruct r as [|d r]; [reflexivity|].
  unfold fence. destruct (backtick =? d)%N eqn:Hd.
  - destruct r as [|e r].
    { intros _. rewrite replaceFences_no_match
        by (unfold fence; cbn [startsWith]; apply andb_false_r).
      cbn [startsWith]. apply andb_false_r. }
    cbn [startsWith]. rewrite Hd. cbn [andb]. rewrite andb_true_r. intros H.
    rewrite replaceFences_no_match
      by (unfold fence; cbn [startsWith]; rewrite Hd, H; reflexivity).
    rewrite replaceFences_no_match
      by (unfold fence; cbn [startsWith]; rewrite H; reflexivity).
    cbn [startsWith]. rewrite Hd, H. reflexivity.
  - intros _. rewrite replaceFences_no_match
      by (unfold fence; cbn [startsWith]; rewrite Hd; reflexivity).
    cbn [startsWith]. rewrite Hd. reflexivity.
Qed.

Lemma replaceFences_no_fence_upto n : forall s,
  (List.length s <= n)%nat -> includes fence (replaceFences 0 s) = false.
Proof.
  induction n as [|n IH]; intros [|c r] Hlen; try reflexivity.
  - simpl in Hlen. lia.
  - destruct (startsWith fenceJson (c :: r)) eqn:Hj.
    + rewrite replaceFences_match_json by exact Hj. apply IH.
      rewrite length_skipn. simpl in *. lia.
    + destruct (startsWith fence (c :: r)) eqn:Hf.
      * rewrite replaceFences_match_fence by assumption. apply IH.
        rewrite length_skipn. simpl in *. lia.
      * rewrite replaceFences_no_match by exact Hf.
        cbn [includes]. rewrite (IH r) by (simpl in Hlen; lia).
        rewrite orb_false_r.
        change (startsWith fence (c :: replaceFences 0 r))
          with ((backtick =? c)%N && startsWith [backtick; backtick] (replaceFences 0 r)).
        change (startsWith fence (c :: r))
          with ((backtick =? c)%N && startsWith [backtick; backtick] r) in Hf.
        destruct (backtick =? c)%N; [|reflexivity]. simpl in *.
        apply replaceFences_two_backticks. exact Hf.
Qed.

Lemma trimStart_suffix s : exists a, s = a ++ trimStart s.
Proof.
  induction s as [|c r [a IH]]; [exists []; reflexivity|].
  simpl. destruct (isWhiteSpace c).
  - exists (c :: a). simpl. f_equal. exact IH.
  - exists []. reflexivity.
Qed.

Lemma trimEnd_prefix s : exists b, s = trimEnd s ++ b.
Proof.
  unfold trimEnd. destruct (trimStart_suffix (rev s)) as [a Ha].
  exists (rev a). rewrite <- rev_app_distr, <- Ha, rev_involutive. reflexivity.
Qed.

(** The cleaned text holds no fence marker. *)
Lemma cleanJsonText_no_fence :
  forall jsonText, includes fence (cleanJsonText jsonText) = false.
Proof.
  intros jsonText. unfold cleanJsonText, trim.
  pose proof (@replaceFences_no_fence_upto _ jsonText (le_n _)) as H.
  destruct (trimStart_suffix (replaceFences 0 jsonText)) as [a Ha].
  destruct (trimEnd_prefix (trimStart (replaceFences 0 jsonText))) as [b Hb].
  rewrite Ha, Hb in H. exact (includes_part fence a _ b H).
Qed.

(** X2.  Whatever the response text, the cleaned text holds no fence
    marker: every run of three backticks is gone, also where two matches
    are removed side by side. *)
Theorem cleaned_text_has_no_fence :
  forall jsonText, includes fence (cleanJsonText jsonText) = false.
Proof.
  exact cleanJsonText_no_fence.
Qed.

Lemma endsWith_backtick_last a :
  endsWith [backtick] a = false -> last a 0%N <> backtick.
Proof.
  unfold endsWith. destruct a as [|x a] using rev_ind; [discriminate|].
  rewrite rev_app_distr, last_last. cbn [rev app startsWith].
  rewrite andb_true_r. intros H. apply N.eqb_neq in H. congruence.
Qed.

(** In front of anything, a stretch of text without a fence marker that
    does not end in a backtick is copied as it is: no match starts in it. *)
Lemma replaceFences_copy a : forall rest,
  includes fence a = false -> last a 0%N <> backtick ->
  replaceFences 0 (a ++ rest) = a ++ replaceFences 0 rest.
Proof.
  induction a as [|c r IH]; intros rest Hno Hlast; [reflexivity|].
  cbn [includes] in Hno. apply orb_false_elim in Hno. destruct Hno as [Hhere Hrest].
  assert (Hnomatch : startsWith fence ((c :: r) ++ rest) = false).
  { destruct r as [|y [|z r]].
    - cbn [last] in Hlast. unfold fence. cbn [app startsWith].
      replace (backtick =? c)%N with false
        by (symmetry; apply N.eqb_neq; congruence). reflexivity.
    - cbn [last] in Hlast. unfold fence. cbn [app startsWith].
      replace (backtick =? y)%N with false
        by (symmetry; apply N.eqb_neq; congruence).
      apply andb_false_r.
    - unfold fence in *. cbn [app startsWith] in *. exact Hhere. }
  cbn [app] in *. rewrite replaceFences_no_match by exact Hnomatch.
  f_equal. apply IH; [exact Hrest|].
  destruct r as [|y r]; [discriminate | exact Hlast].
Qed.

(** X3.  A text in [```json ... ```] fences is cleaned to the trimmed text
    between them, when that text holds no fence marker and does not end in
    a backtick. *)
Theorem fenced_text_is_unwrapped :
  forall body,
    includes fence body = false ->
    endsWith [backtick] body = false ->
    cleanJsonText (fenceJson ++ body ++ fence) = trim body.
Proof.
  intros body Hno Hend. unfold cleanJsonText. f_equal.
  rewrite replaceFences_match_json by apply startsWith_app.
  change (skipn 7 (fenceJson ++ body ++ fence)) with (body ++ fence).
  rewrite replaceFences_copy by (auto using endsWith_backtick_last).
  change (replaceFences 0 fence) with (@nil N). apply app_nil_r.
Qed.

Lemma fenced_text_is_unwrapped_witness :
  cleanJsonText (fenceJson ++ lit "
[1, 2]
" ++ fence) = lit "[1, 2]".
Proof.
  rewrite (@fenced_text_is_unwrapped (lit "
[1, 2]
") eq_refl eq_refl). reflexivity.
Defined.

Lemma startsWith_same_prefix p q s : startsWith (p ++ q) (p ++ s) = startsWith q s.
Proof.
  induction p as [|x p IH]; [reflexivity|].
  cbn [app startsWith]. rewrite N.eqb_refl. exact IH.
Qed.

(** X4.  The pattern is not anchored: a fence marker in the middle of the
    text is removed as well, and the two sides are joined.  (Here the left
    side holds no marker and does not end in a backtick, the right side
    holds no marker and does not start with [json].) *)
Theorem inner_fence_is_removed :
  forall a b,
    includes fence a = false ->
    endsWith [backtick] a = false ->
    includes fence b = false ->
    startsWith (lit "json") b = false ->
    cleanJsonText (a ++ fence ++ b) = trim (a ++ b) /\
    cleanJsonText (a ++ fenceJson ++ b) = trim (a ++ b).
Proof.
  intros a b Ha Hend Hb Hjson. unfold cleanJsonText.
  pose proof (replaceFences_identity b Hb) as Hcopy.
  split; f_equal; rewrite replaceFences_copy by (auto using endsWith_backtick_last);
    f_equal.
  - rewrite replaceFences_match_fence; [exact Hcopy| |apply startsWith_app].
    unfold fenceJson. rewrite startsWith_same_prefix. exact Hjson.
  - rewrite replaceFences_match_json by apply startsWith_app. exact Hcopy.
Qed.

(* ================================================================== *)
(** ** Whitespace around a JSON text *)
(* ================================================================== *)

Ltac break_if_in H :=
  match type of H with
  | context [if ?b then _ else _] => destruct b eqn:?
  end.

Lemma jsonWhiteSpace_cases c :
  isJsonWhiteSpace c = true -> c = 9%N \/ c = 10%N \/ c = 13%N \/ c = 32%N.
Proof.
  unfold isJsonWhiteSpace. intros H.
  repeat (apply orb_prop in H; destruct H as [H|H]);
    apply N.eqb_eq in H; auto.
Qed.

Lemma jsonWhiteSpace_is_whiteSpace c :
  isJsonWhiteSpace c = true -> isWhiteSpace c = true.
Proof.
  intros H. apply jsonWhiteSpace_cases in H.
  destruct H as [-> | [-> | [-> | ->]]]; reflexivity.
Qed.

Lemma jsstring_eqb_eq a : forall b, JsString.eqb a b = true -> a = b.
Proof.
  induction a as [|x a IH]; intros [|y b]; simpl; try discriminate; auto.
  intros H. apply andb_prop in H. destruct H as [Hx Hab].
  apply N.eqb_eq in Hx. subst. f_equal. auto.
Qed.

Lemma literalTails_cases rest :
  existsb (JsString.eqb rest) literalTails = true -> In rest literalTails.
Proof.
  intros H. apply existsb_exists in H. destruct H as (t & Hin & Heq).
  apply jsstring_eqb_eq in Heq. subst. exact Hin.
Qed.

Lemma lexIdle_ok c st out : lexIdle c = Some (st, out) -> lexStateOk st = true.
Proof.
  unfold lexIdle. intros H.
  repeat (break_if_in H; [inversion H; reflexivity|]). discriminate.
Qed.

(** The lexer stays within the states of [lexStateOk]. *)
Lemma lexStep_ok st c st' out :
  lexStateOk st = true -> lexStep st c = Some (st', out) -> lexStateOk st' = true.
Proof.
  intros Hok H. destruct st as [|acc|acc|acc k v|rest tok|ph a]; simpl in H.
  - eapply lexIdle_ok; eauto.
  - repeat (break_if_in H; [inversion H; reflexivity|]); try discriminate.
    inversion H; reflexivity.
  - unfold lexEscape in H.
    repeat (break_if_in H; [inversion H; reflexivity|]). discriminate.
  - destruct (hexValue c); [|discriminate].
    destruct k as [|[|[|[|k]]]]; inversion H; reflexivity.
  - apply literalTails_cases in Hok. simpl in Hok.
    repeat (destruct Hok as [Hok|Hok]; [subst rest|]); try contradiction;
      unfold lit in H; cbn in H; break_if_in H; try discriminate;
      inversion H; reflexivity.
  - unfold lexNumber, lexAfterNumber in H.
    destruct ph;
      repeat (break_if_in H; [inversion H; reflexivity|]); try discriminate;
      destruct (lexIdle c) as [[st1 out1]|] eqn:Hidle; try discriminate;
      inversion H; subst; eapply lexIdle_ok; eauto.
Qed.

(** Whitespace between tokens is skipped. *)
Lemma lexFrom_idle_whiteSpace w s :
  forallb isJsonWhiteSpace w = true -> lexFrom LIdle (w ++ s) = lexFrom LIdle s.
Proof.
  induction w as [|c w IH]; intros H; [reflexivity|].
  cbn [forallb] in H. apply andb_prop in H. destruct H as [Hc Hw].
  cbn [app lexFrom lexStep]. unfold lexIdle. rewrite Hc, (IH Hw).
  destruct (lexFrom LIdle s); reflexivity.
Qed.

Lemma lexFrom_string_whiteSpace w : forall acc,
  forallb isJsonWhiteSpace w = true -> lexFrom (LString acc) w = None.
Proof.
  induction w as [|c w IH]; intros acc H; [reflexivity|].
  cbn [forallb] in H. apply andb_prop in H. destruct H as [Hc Hw].
  apply jsonWhiteSpace_cases in Hc.
  destruct Hc as [-> | [-> | [-> | ->]]]; try reflexivity.
  cbn. rewrite (IH _ Hw). reflexivity.
Qed.

(** At the end of the text, trailing whitespace changes nothing: it closes
    a complete number, and nothing else was pending if the text is well
    formed. *)
Lemma lexFrom_whiteSpace_end w st :
  lexStateOk st = true -> forallb isJsonWhiteSpace w = true ->
  lexFrom st w = lexEnd st.
Proof.
  intros Hok Hw. destruct w as [|c w]; [reflexivity|].
  cbn [forallb] in Hw. apply andb_prop in Hw. destruct Hw as [Hc Hw].
  pose proof (lexFrom_idle_whiteSpace w [] Hw) as Hidle. rewrite app_nil_r in Hidle.
  pose proof (lexFrom_string_whiteSpace w) as Hstring.
  apply jsonWhiteSpace_cases in Hc.
  destruct st as [|acc|acc|acc k v|rest tok|ph a].
  - destruct Hc as [-> | [-> | [-> | ->]]]; cbn; rewrite Hidle; reflexivity.
  - destruct Hc as [-> | [-> | [-> | ->]]]; try reflexivity.
    cbn. rewrite (Hstring _ Hw). reflexivity.
  - destruct Hc as [-> | [-> | [-> | ->]]]; reflexivity.
  - destruct Hc as [-> | [-> | [-> | ->]]]; reflexivity.
  - apply literalTails_cases in Hok. simpl in Hok.
    repeat (destruct Hok as [Hok|Hok]; [subst rest|]); try contradiction;
      destruct Hc as [-> | [-> | [-> | ->]]]; reflexivity.
  - destruct ph; destruct Hc as [-> | [-> | [-> | ->]]];
      cbn; rewrite ?Hidle; reflexivity.
Qed.

Lemma lexFrom_trailing_whiteSpace s : forall st w,
  lexStateOk st = true -> forallb isJsonWhiteSpace w = true ->
  lexFrom st (s ++ w) = lexFrom st s.
Proof.
  induction s as [|c s IH]; intros st w Hok Hw.
  - apply lexFrom_whiteSpace_end; assumption.
  - cbn [app lexFrom]. destruct (lexStep st c) as [[st' out]|] eqn:Hstep; [|reflexivity].
    rewrite (IH st' w (lexStep_ok _ _ Hok Hstep) Hw). reflexivity.
Qed.

Lemma printable_not_whiteSpace c :
  (33 <= c)%N -> (c <= 126)%N -> isWhiteSpace c = false.
Proof.
  intros Hlo Hhi. unfold isWhiteSpace.
  repeat match goal with
         | |- context [(c =? ?k)%N] =>
             replace (c =? k)%N with false by (symmetry; apply N.eqb_neq; lia)
         end.
  replace (8192 <=? c)%N with false by (symmetry; apply N.leb_gt; lia).
  reflexivity.
Qed.

Lemma endsToken_printable c :
  endsToken c = true -> (33 <= c)%N /\ (c <= 126)%N /\ c <> backtick.
Proof.
  unfold endsToken, isDigit, backtick. intros H.
  repeat (apply orb_prop in H; destruct H as [H|H]);
    try (apply N.eqb_eq in H; subst c; cbv; repeat split; discriminate).
  apply andb_prop in H. destruct H as [Hlo Hhi].
  apply N.leb_le in Hlo, Hhi. lia.
Qed.

Lemma endsToken_digit c : isDigit c = true -> endsToken c = true.
Proof.
  intros H. unfold endsToken. rewrite H. rewrite !orb_true_r. reflexivity.
Qed.

Lemma isDigit19_isDigit c : isDigit19 c = true -> isDigit c = true.
Proof.
  unfold isDigit19, isDigit. intros H. apply andb_prop in H. destruct H as [Hlo Hhi].
  apply N.leb_le in Hlo. rewrite Hhi, andb_true_r. apply N.leb_le. lia.
Qed.

(** A code unit that starts a token is not whitespace for [trim]. *)
Lemma lexIdle_not_whiteSpace c st out :
  lexIdle c = Some (st, out) -> isJsonWhiteSpace c = false -> isWhiteSpace c = false.
Proof.
  unfold lexIdle. intros H Hws. rewrite Hws in H.
  repeat (break_if_in H;
          [match goal with
           | E : (c =? _)%N = true |- _ => apply N.eqb_eq in E; subst c; reflexivity
           | E : isDigit19 c = true |- _ =>
               apply isDigit19_isDigit, endsToken_digit, endsToken_printable in E;
               apply printable_not_whiteSpace; lia
           end|]).
  discriminate.
Qed.

(** A step that leaves nothing pending was made on a code unit that ends a
    token (or on whitespace). *)
Lemma lexIdle_ends_token c st out ts :
  lexIdle c = Some (st, out) -> lexEnd st = Some ts ->
  isJsonWhiteSpace c = false -> endsToken c = true.
Proof.
  unfold lexIdle. intros H Hend Hws. rewrite Hws in H.
  repeat (break_if_in H;
          [inversion H; subst; try discriminate;
           match goal with
           | E : (c =? _)%N = true |- _ => apply N.eqb_eq in E; subst c; reflexivity
           | E : isDigit19 c = true |- _ =>
               apply endsToken_digit, isDigit19_isDigit; exact E
           end|]).
  discriminate.
Qed.

Lemma lexStep_ends_token st c st' out ts :
  lexStateOk st = true ->
  lexStep st c = Some (st', out) -> lexEnd st' = Some ts ->
  isJsonWhiteSpace c = false -> endsToken c = true.
Proof.
  intros Hok H Hend Hws.
  destruct st as [|acc|acc|acc k v|rest tok|ph a]; simpl in H.
  - eapply lexIdle_ends_token; eauto.
  - repeat (break_if_in H;
            [inversion H; subst; try discriminate;
             match goal with
             | E : (c =? _)%N = true |- _ => apply N.eqb_eq in E; subst c; reflexivity
             end|]).
    inversion H; subst; discriminate.
  - unfold lexEscape in H.
    repeat (break_if_in H; [inversion H; subst; discriminate|]). discriminate.
  - destruct (hexValue c); [|discriminate].
    destruct k as [|[|[|[|k]]]]; inversion H; subst; discriminate.
  - apply literalTails_cases in Hok. simpl in Hok.
    repeat (destruct Hok as [Hok|Hok]; [subst rest|]); try contradiction;
      unfold lit in H; cbn in H; break_if_in H; try discriminate;
      inversion H; subst; try discriminate;
      match goal with
      | E : (c =? _)%N = true |- _ => apply N.eqb_eq in E; subst c; reflexivity
      end.
  - unfold lexNumber, lexAfterNumber in H.
    destruct ph;
      repeat (break_if_in H;
              [inversion H; subst; try discriminate;
               match goal with
               | E : isDigit c = true |- _ => apply endsToken_digit; exact E
               | E : isDigit19 c = true |- _ =>
                   apply endsToken_digit, isDigit19_isDigit; exact E
               | E : (c =? _)%N = true |- _ =>
                   apply N.eqb_eq in E; subst c; reflexivity
               end|]);
      try discriminate;
      destruct (lexIdle c) as [[st1 out1]|] eqn:Hidle; try discriminate;
      inversion H; subst; eapply lexIdle_ends_token; eauto.
Qed.

(** The last code unit of a text that lexes is whitespace or ends a
    token. *)
Lemma lexFrom_last s : forall st c ts,
  lexStateOk st = true -> lexFrom st (s ++ [c]) = Some ts ->
  isJsonWhiteSpace c = false -> endsToken c = true.
Proof.
  induction s as [|x s IH]; intros st c ts Hok H Hws.
  - cbn [app lexFrom] in H.
    destruct (lexStep st c) as [[st' out]|] eqn:Hstep; [|discriminate].
    destruct (lexEnd st') as [ts'|] eqn:Hend; [|discriminate].
    eapply lexStep_ends_token; eauto.
  - cbn [app lexFrom] in H.
    destruct (lexStep st x) as [[st' out]|] eqn:Hstep; [|discriminate].
    destruct (lexFrom st' (s ++ [c])) as [ts'|] eqn:Hrest; [|discriminate].
    exact (IH st' c ts' (lexStep_ok _ _ Hok Hstep) Hrest Hws).
Qed.

Lemma trimEnd_snoc y c :
  trimEnd (y ++ [c]) = if isWhiteSpace c then trimEnd y else y ++ [c].
Proof.
  unfold trimEnd. rewrite rev_app_distr. cbn [rev app trimStart].
  destruct (isWhiteSpace c); [reflexivity|].
  cbn [rev]. rewrite rev_involutive. reflexivity.
Qed.

Lemma trimStart_leading w x :
  forallb isWhiteSpace w = true -> trimStart (w ++ x) = trimStart x.
Proof.
  induction w as [|c w IH]; intros H; [reflexivity|].
  cbn [forallb] in H. apply andb_prop in H. destruct H as [Hc Hw].
  cbn [app trimStart]. rewrite Hc. auto.
Qed.

Lemma trimEnd_trailing x w :
  forallb isWhiteSpace w = true -> trimEnd (x ++ w) = trimEnd x.
Proof.
  induction w as [|c w IH] using rev_ind; intros H; [rewrite app_nil_r; reflexivity|].
  rewrite forallb_app in H. apply andb_prop in H. destruct H as [Hw Hc].
  cbn [forallb] in Hc. rewrite andb_true_r in Hc.
  rewrite app_assoc, trimEnd_snoc, Hc. auto.
Qed.

Lemma trimStart_app_nonempty s w :
  trimStart s <> [] -> trimStart (s ++ w) = trimStart s ++ w.
Proof.
  induction s as [|c s IH]; intros H; [contradiction|].
  cbn [app trimStart] in *. destruct (isWhiteSpace c); auto.
Qed.

(** Padding a text that is not blank with whitespace does not change what
    [trim] returns. *)
Lemma trim_padded pre s post :
  forallb isWhiteSpace pre = true -> forallb isWhiteSpace post = true ->
  trimStart s <> [] ->
  trim (pre ++ s ++ post) = trim s.
Proof.
  intros Hpre Hpost Hs. unfold trim.
  rewrite trimStart_leading by exact Hpre.
  rewrite trimStart_app_nonempty by exact Hs.
  apply trimEnd_trailing. exact Hpost.
Qed.

Lemma tokenize_trimStart s ts :
  tokenize s = Some ts -> tokenize (trimStart s) = Some ts.
Proof.
  unfold tokenize. induction s as [|c s IH]; intros H; [exact H|].
  cbn [trimStart]. destruct (isJsonWhiteSpace c) eqn:Hws.
  - rewrite (jsonWhiteSpace_is_whiteSpace _ Hws). apply IH.
    change (c :: s) with ([c] ++ s) in H.
    rewrite lexFrom_idle_whiteSpace in H by (cbn; rewrite Hws; reflexivity).
    exact H.
  - cbn [lexFrom lexStep] in H.
    destruct (lexIdle c) as [[st out]|] eqn:Hidle; [|discriminate].
    rewrite (lexIdle_not_whiteSpace _ Hidle Hws).
    cbn [lexFrom lexStep]. rewrite Hidle. exact H.
Qed.

Lemma tokenize_trimEnd s ts :
  tokenize s = Some ts -> tokenize (trimEnd s) = Some ts.
Proof.
  unfold tokenize. induction s as [|c s IH] using rev_ind; intros H; [exact H|].
  rewrite trimEnd_snoc. destruct (isJsonWhiteSpace c) eqn:Hws.
  - rewrite (jsonWhiteSpace_is_whiteSpace _ Hws). apply IH.
    rewrite lexFrom_trailing_whiteSpace in H
      by (try reflexivity; cbn; rewrite Hws; reflexivity).
    exact H.
  - pose proof (lexFrom_last s LIdle c eq_refl H Hws) as Hend.
    apply endsToken_printable in Hend.
    rewrite printable_not_whiteSpace by lia. exact H.
Qed.

Lemma parse_needs_a_token text v : Json.parse text = Some v -> trimStart text <> [].
Proof.
  unfold Json.parse. destruct (tokenize text) as [ts|] eqn:Hlex; [|discriminate].
  intros Hparse Hblank. apply tokenize_trimStart in Hlex. rewrite Hblank in Hlex.
  inversion Hlex; subst. discriminate.
Qed.

(** [JSON.parse] reads a well-formed text and its trimmed form alike. *)
Lemma parse_trim text v : Json.parse text = Some v -> Json.parse (trim text) = Some v.
Proof.
  unfold Json.parse, trim. destruct (tokenize text) as [ts|] eqn:Hlex; [|discriminate].
  rewrite (tokenize_trimEnd _ (tokenize_trimStart _ Hlex)). auto.
Qed.

Lemma whiteSpace_not_backtick c : isWhiteSpace c = true -> c <> backtick.
Proof.
  unfold isWhiteSpace, backtick. intros H.
  repeat (apply orb_prop in H; destruct H as [H|H]);
    try (apply N.eqb_eq in H; subst c; discriminate).
  apply andb_prop in H. destruct H as [Hlo Hhi]. apply N.leb_le in Hlo. lia.
Qed.

Lemma whiteSpace_no_fence w :
  forallb isWhiteSpace w = true ->
  includes fence w = false /\ last w 0%N <> backtick.
Proof.
  induction w as [|c w IH]; intros H; [split; [reflexivity | discriminate]|].
  cbn [forallb] in H. apply andb_prop in H. destruct H as [Hc Hw].
  destruct (IH Hw) as [Hno Hlast]. apply whiteSpace_not_backtick in Hc. split.
  - cbn [includes]. rewrite Hno, orb_false_r. unfold fence. cbn [startsWith].
    replace (backtick =? c)%N with false by (symmetry; apply N.eqb_neq; congruence).
    reflexivity.
  - destruct w as [|d w]; [exact Hc | exact Hlast].
Qed.

(** A text that lexes does not end in a backtick. *)
Lemma tokenize_last_not_backtick s ts :
  tokenize s = Some ts -> last s 0%N <> backtick.
Proof.
  destruct s as [|c s _] using rev_ind; [discriminate|].
  intros H. rewrite last_last. destruct (isJsonWhiteSpace c) eqn:Hws.
  - apply whiteSpace_not_backtick, jsonWhiteSpace_is_whiteSpace, Hws.
  - apply (lexFrom_last s LIdle c eq_refl H) in Hws.
    apply endsToken_printable in Hws. tauto.
Qed.

(** X5.  Cleaning does not disturb a reply that is already bare JSON: a
    well-formed JSON text without fence markers parses to the same value
    after cleaning. *)
Theorem cleaning_keeps_bare_json :
  forall text v,
    Json.parse text = Some v ->
    includes fence text = false ->
    Json.parse (cleanJsonText text) = Some v.
Proof.
  intros text v Hparse Hno. unfold cleanJsonText.
  rewrite replaceFences_identity by exact Hno.
  apply parse_trim. exact Hparse.
Qed.

Lemma cleaning_keeps_bare_json_witness :
  Json.parse (cleanJsonText (lit " [1, 2] ")) = Some (JArr [JNum false 1 0; JNum false 2 0]).
Proof.
  apply (@cleaning_keeps_bare_json (lit " [1, 2] ")); reflexivity.
Defined.

(** Cleaning and parsing a fenced, well-formed JSON text. *)
Lemma parse_cleaned_fenced :
  forall text v pre post,
    Json.parse text = Some v ->
    includes fence text = false ->
    forallb isWhiteSpace pre = true ->
    forallb isWhiteSpace post = true ->
    Json.parse (cleanJsonText (fenceJson ++ pre ++ text ++ post ++ fence)) = Some v.
Proof.
  intros text v pre post Hparse Hno Hpre Hpost.
  assert (Hlast : last text 0%N <> backtick).
  { unfold Json.parse in Hparse.
    destruct (tokenize text) as [ts|] eqn:Hlex; [|discriminate].
    exact (tokenize_last_not_backtick _ Hlex). }
  destruct (whiteSpace_no_fence _ Hpre) as [Hpre1 Hpre2].
  destruct (whiteSpace_no_fence _ Hpost) as [Hpost1 Hpost2].
  unfold cleanJsonText.
  rewrite replaceFences_match_json by apply startsWith_app.
  change (skipn 7 (fenceJson ++ pre ++ text ++ post ++ fence))
    with (pre ++ text ++ post ++ fence).
  rewrite !replaceFences_copy by assumption.
  change (replaceFences 0 fence) with (@nil N). rewrite app_nil_r.
  rewrite trim_padded by eauto using parse_needs_a_token.
  apply parse_trim. exact Hparse.
Qed.

(** X6.  The round trip through the fences: for a well-formed JSON text
    without fence markers inside, cleaning that text wrapped in
    [```json ... ```], with any whitespace between the fences and the text,
    and parsing the result gives the value of the text itself. *)
Theorem fenced_json_parses_like_bare_json :
  forall text v pre post,
    Json.parse text = Some v ->
    includes fence text = false ->
    forallb isWhiteSpace pre = true ->
    forallb isWhiteSpace post = true ->
    Json.parse (cleanJsonText (fenceJson ++ pre ++ text ++ post ++ fence)) = Some v.
Proof.
  intros text v pre post Hparse Hno Hpre Hpost.
  exact (parse_cleaned_fenced text pre post Hparse Hno Hpre Hpost).
Qed.

Lemma fenced_json_parses_like_bare_json_witness :
  Json.parse (cleanJsonText (fenceJson ++ lit "
" ++ jsonLit "{'a': [true]}" ++ lit "
" ++ fence))
  = Some (JObj [(lit "a", JArr [JBool true])]).
Proof.
  apply (@fenced_json_parses_like_bare_json (jsonLit "{'a': [true]}")); reflexivity.
Defined.

Lemma inner_fence_is_removed_witness :
  cleanJsonText ([dquote] ++ fence ++ [dquote]) = [dquote; dquote].
Proof.
  exact (proj1 (@inner_fence_is_removed [dquote] [dquote] eq_refl eq_refl eq_refl eq_refl)).
Defined.

(** X7.  A first reply that wraps well-formed JSON in [```json ... ```]
    fences is accepted at once: the submission makes one call, waits for
    nothing, stores the value of the JSON between the fences and leaves no
    error. *)
Theorem fenced_reply_is_accepted_at_once :
  forall rev engine transport st base64Image textInput text v pre post,
    submittable st base64Image textInput ->
    Json.parse text = Some v ->
    includes fence text = false ->
    forallb isWhiteSpace pre = true ->
    forallb isWhiteSpace post = true ->
    (forall url body,
        deliversText (transport 0%nat url body)
                     (fenceJson ++ pre ++ text ++ post ++ fence)) ->
    let run := fetchGeminiAnalysis rev engine transport st base64Image textInput in
    fetchCount (trace run) = 1%nat /\
    delays (trace run) = [] /\
    currentAnalysis (finalState run) = v /\
    error (finalState run) = [] /\
    isLoading (finalState run) = false /\
    completion run = Returned.
Proof.
  intros rev engine transport st base64Image textInput text v pre post
         Hsub Hparse Hno Hpre Hpost Hdelivers run.
  destruct (fetchGeminiAnalysis_runs_loop rev engine transport Hsub)
    as (url & body & Hrun & _).
  subst run. rewrite Hrun. unfold maxRetries.
  rewrite (@retryLoop_success engine transport url body 2 0 None (beginAnalysis rev st) v).
  - destruct rev; repeat split; reflexivity.
  - rewrite (tryBlock_text engine (Hdelivers url body)).
    rewrite (@parse_cleaned_fenced text v pre post Hparse Hno Hpre Hpost).
    reflexivity.
Qed.

Lemma fenced_reply_is_accepted_at_once_witness :
  currentAnalysis (finalState (fetchGeminiAnalysis AppJsx plainEngine
     (always (respond (textBody (fenceJson ++ lit "
" ++ lit "[]" ++ lit "
" ++ fence))))
     initialState None cowText)) = JArr [].
Proof.
  refine (proj1 (proj2 (proj2
    (@fenced_reply_is_accepted_at_once AppJsx plainEngine
       (always (respond (textBody (fenceJson ++ lit "
" ++ lit "[]" ++ lit "
" ++ fence))))
       initialState None cowText (lit "[]") (JArr []) (lit "
") (lit "
") _ eq_refl eq_refl eq_refl eq_refl _)))).
  - split; [reflexivity | discriminate].
  - intros url body. eexists. split; [reflexivity|]. split; [reflexivity | discriminate].
Defined.

(* ================================================================== *)
(** ** Every submission *)
(* ================================================================== *)

(** A submission either goes ahead and runs the loop, or makes no call:
    it is refused for lack of input, or it is rejected because image data
    came without a file in the state. *)
Lemma fetchGeminiAnalysis_dichotomy rev engine transport st base64Image textInput :
  submittable st base64Image textInput \/
  trace (fetchGeminiAnalysis rev engine transport st base64Image textInput) = [].
Proof.
  destruct (hasText textInput || hasImage base64Image) eqn:Hinput.
  - destruct (hasImage base64Image) eqn:Himg.
    + destruct (imageFile st) as [file|] eqn:Hfile.
      * left. split; [rewrite Himg; exact Hinput | congruence].
      * right. unfold fetchGeminiAnalysis. rewrite Himg, andb_false_r.
        destruct base64Image as [[|c data]|]; try discriminate.
        replace (imageFile (beginAnalysis rev st)) with (imageFile st)
          by (destruct rev; reflexivity).
        rewrite Hfile. reflexivity.
    + left. split; [rewrite Himg; exact Hinput | congruence].
  - right. unfold fetchGeminiAnalysis.
    apply orb_false_elim in Hinput. destruct Hinput as [-> ->]. reflexivity.
Qed.

(** The calls and waits of the loop, over the four ways it can go. *)
Lemma retryLoop_calls_and_waits engine transport apiUrl payload st :
  let run := retryLoop engine transport apiUrl payload maxRetries 0 None st in
  (fetchCount (trace run) <= 3)%nat /\
  delays (trace run) = firstn (fetchCount (trace run) - 1) [1000; 2000]%Z.
Proof.
  unfold maxRetries. simpl.
  destruct (tryBlock engine (transport 0%nat apiUrl payload)); simpl;
    [destruct (tryBlock engine (transport 1%nat apiUrl payload)); simpl;
     [destruct (tryBlock engine (transport 2%nat apiUrl payload)); simpl|]|];
    split; (reflexivity || (unfold fetchCount; simpl; lia)).
Qed.

(** X9.  Retries resend the same request: all calls of a submission go to
    one address with one body. *)
Theorem every_attempt_sends_the_same_request :
  forall rev engine transport st base64Image textInput url1 body1 url2 body2,
    let run := fetchGeminiAnalysis rev engine transport st base64Image textInput in
    In (EFetch url1 body1) (trace run) ->
    In (EFetch url2 body2) (trace run) ->
    url1 = url2 /\ body1 = body2.
Proof.
  intros rev engine transport st base64Image textInput url1 body1 url2 body2 run H1 H2.
  subst run.
  destruct (fetchGeminiAnalysis_dichotomy rev engine transport st base64Image textInput)
    as [Hsub|Hnone].
  - destruct (fetchGeminiAnalysis_runs_loop rev engine transport Hsub)
      as (url & body & Hrun & _).
    rewrite Hrun in H1, H2.
    apply retryLoop_calls in H1, H2. destruct H1 as [-> ->], H2 as [-> ->]. auto.
  - rewrite Hnone in H1. contradiction.
Qed.

Lemma every_attempt_sends_the_same_request_witness :
  let payload := buildPayload AppJsx [mkContent [TextPart (prompt AppJsx 10 cowText)]]
                              (prompt AppJsx 10 cowText) in
  let run := fetchGeminiAnalysis AppJsx plainEngine
               (always (respond (finishBody "SAFETY"))) initialState None cowText in
  In (EFetch API_URL_TEXT payload) (trace run) /\
  (API_URL_TEXT = API_URL_TEXT /\ payload = payload).
Proof.
  intros payload run.
  assert (Hin : In (EFetch API_URL_TEXT payload) (trace run)) by (left; reflexivity).
  split; [exact Hin|].
  exact (@every_attempt_sends_the_same_request AppJsx plainEngine
           (always (respond (finishBody "SAFETY"))) initialState None cowText
           API_URL_TEXT payload API_URL_TEXT payload Hin Hin).
Defined.

(** X10.  Success after failures: when the attempts before attempt k fail,
    in whatever way, and attempt k brings a text that parses after
    cleaning, the submission makes k + 1 calls, has waited the first k of
    1000, 2000, stores the parsed value, and ends with no error and not
    loading. *)
Theorem success_after_failures :
  forall rev engine transport st base64Image textInput (k : nat) text v,
    submittable st base64Image textInput ->
    (k < maxRetries)%nat ->
    (forall j url body, (j < k)%nat ->
       exists e, tryBlock engine (transport j url body) = inl e) ->
    (forall url body, deliversText (transport k url body) text) ->
    Json.parse (cleanJsonText text) = Some v ->
    let run := fetchGeminiAnalysis rev engine transport st base64Image textInput in
    fetchCount (trace run) = S k /\
    delays (trace run) = firstn k [1000; 2000]%Z /\
    currentAnalysis (finalState run) = v /\
    error (finalState run) = [] /\
    isLoading (finalState run) = false /\
    completion run = Returned.
Proof.
  intros rev engine transport st base64Image textInput k text v
         Hsub Hk Hearlier Hdelivers Hparse run.
  destruct (fetchGeminiAnalysis_runs_loop rev engine transport Hsub)
    as (url & body & Hrun & _).
  subst run. rewrite Hrun. clear Hrun.
  assert (Hok : tryBlock engine (transport k url body) = inr v)
    by (rewrite (tryBlock_text engine (Hdelivers url body)), Hparse; reflexivity).
  unfold maxRetries in *.
  destruct k as [|[|[|k]]]; try lia.
  - rewrite (@retryLoop_success engine transport url body 2 0 None _ v Hok).
    destruct rev; repeat split; reflexivity.
  - destruct (Hearlier 0%nat url body ltac:(lia)) as (e0 & H0).
    rewrite (@retryLoop_failed_attempt engine transport url body 2 0 None _ e0 H0).
    rewrite (@retryLoop_success engine transport url body 1 1 (Some e0) _ v Hok).
    destruct rev; repeat split; reflexivity.
  - destruct (Hearlier 0%nat url body ltac:(lia)) as (e0 & H0).
    destruct (Hearlier 1%nat url body ltac:(lia)) as (e1 & H1).
    rewrite (@retryLoop_failed_attempt engine transport url body 2 0 None _ e0 H0).
    rewrite (@retryLoop_failed_attempt engine transport url body 1 1 (Some e0) _ e1 H1).
    rewrite (@retryLoop_success engine transport url body 0 2 (Some e1) _ v Hok).
    destruct rev; repeat split; reflexivity.
Qed.

Lemma success_after_failures_witness :
  let transport := scripted [FetchResponse false 500 (inr JNull);
                             respond (finishBody "STOP");
                             respond (textBody (lit "[]"))] in
  let run := fetchGeminiAnalysis AppJsx plainEngine transport initialState None cowText in
  fetchCount (trace run) = 3%nat /\
  delays (trace run) = [1000; 2000]%Z /\
  currentAnalysis (finalState run) = JArr [].
Proof.
  intros transport run.
  destruct (@success_after_failures AppJsx plainEngine transport initialState None cowText
              2%nat (lit "[]") (JArr [])) as (H1 & H2 & H3 & _).
  - split; [reflexivity | discriminate].
  - unfold maxRetries. lia.
  - intros j url body Hj. destruct j as [|[|j]]; [eexists; reflexivity .. | lia].
  - intros url body. eexists. split; [reflexivity|]. split; [reflexivity | discriminate].
  - reflexivity.
  - auto.
Defined.

(** X11.  An attempt succeeds exactly when its response completes
    transport, its body yields a text that is a non-empty string, and that
    text parses after cleaning; the value it yields is that parse. *)
Theorem attempt_succeeds_iff_text_parses :
  forall engine o v,
    tryBlock engine o = inr v <->
    exists text, deliversText o text /\ Json.parse (cleanJsonText text) = Some v.
Proof.
  intros engine o v. split.
  - apply tryBlock_success.
  - intros (text & Hdelivers & Hparse).
    rewrite (tryBlock_text engine Hdelivers), Hparse. reflexivity.
Qed.

(** X12.  When all three attempts fail, the error is set and the loading
    flag cleared; the previous analysis stays on screen in [App.jsx] and is
    cleared in the sibling revision, which resets it when a submission
    starts. *)
Theorem failed_submission_and_previous_analysis :
  forall rev engine transport st base64Image textInput,
    submittable st base64Image textInput ->
    (forall attempt url body,
        exists e, tryBlock engine (transport attempt url body) = inl e) ->
    let run := fetchGeminiAnalysis rev engine transport st base64Image textInput in
    currentAnalysis (finalState run)
    = match rev with
      | AppJsx => currentAnalysis st
      | InlineCorrections => JNull
      end /\
    error (finalState run) <> [] /\
    isLoading (finalState run) = false /\
    fetchCount (trace run) = 3%nat.
Proof.
  intros rev engine transport st base64Image textInput Hsub Hfail run.
  destruct (fetchGeminiAnalysis_runs_loop rev engine transport Hsub)
    as (url & body & Hrun & _).
  subst run. rewrite Hrun.
  destruct (Hfail 0%nat url body) as (e0 & H0).
  destruct (Hfail 1%nat url body) as (e1 & H1).
  destruct (Hfail 2%nat url body) as (e2 & H2).
  rewrite (retryLoop_three_failures engine transport url body _ H0 H1 H2).
  cbn [finalState trace currentAnalysis error isLoading setError setIsLoading].
  repeat split.
  - destruct rev; reflexivity.
  - apply failureMessage_nonempty.
Qed.

Lemma failed_submission_and_previous_analysis_witness :
  let st := setCurrentAnalysis (JArr []) initialState in
  currentAnalysis (finalState (fetchGeminiAnalysis AppJsx plainEngine
     (always (respond (finishBody "SAFETY"))) st None cowText)) = JArr [] /\
  currentAnalysis (finalState (fetchGeminiAnalysis InlineCorrections plainEngine
     (always (respond (finishBody "SAFETY"))) st None cowText)) = JNull.
Proof.
  intros st. split.
  - refine (proj1 (@failed_submission_and_previous_analysis AppJsx plainEngine
                     (always (respond (finishBody "SAFETY"))) st None cowText _ _)).
    + split; [reflexivity | discriminate].
    + intros attempt url body. eexists. reflexivity.
  - refine (proj1 (@failed_submission_and_previous_analysis InlineCorrections plainEngine
                     (always (respond (finishBody "SAFETY"))) st None cowText _ _)).
    + split; [reflexivity | discriminate].
    + intros attempt url body. eexists. reflexivity.
Defined.

(** The address and the body of the calls of a submission. *)
Lemma fetchGeminiAnalysis_request :
  forall rev engine transport st base64Image textInput url body,
    In (EFetch url body)
       (trace (fetchGeminiAnalysis rev engine transport st base64Image textInput)) ->
    responseMimeType body = lit "application/json" /\
    responseSchema body = analysisSchema rev /\
    systemInstruction body = mkContent [TextPart systemInstructionText] /\
    match base64Image with
    | Some (c :: data) =>
        exists file,
          imageFile st = Some file /\
          url = API_URL_MULTIMODAL /\
          contents body
          = [mkContent [TextPart (imagePrompt (prompt rev (numHeadlines st) textInput));
                        InlineData (fileType file) (c :: data)]]
    | _ =>
        url = API_URL_TEXT /\
        contents body = [mkContent [TextPart (prompt rev (numHeadlines st) textInput)]]
    end.
Proof.
  intros rev engine transport st base64Image textInput url body Hin.
  assert (Hnum : numHeadlines (beginAnalysis rev st) = numHeadlines st)
    by (destruct rev; reflexivity).
  assert (Himg : imageFile (beginAnalysis rev st) = imageFile st)
    by (destruct rev; reflexivity).
  unfold fetchGeminiAnalysis in Hin.
  destruct (negb (hasText textInput) && negb (hasImage base64Image)); [contradiction|].
  rewrite Hnum, Himg in Hin.
  destruct base64Image as [[|c data]|];
    try (apply retryLoop_calls in Hin; destruct Hin as [-> ->];
         repeat split; reflexivity).
  destruct (imageFile st) as [file|]; [|contradiction].
  apply retryLoop_calls in Hin. destruct Hin as [-> ->].
  repeat split. exists file. repeat split.
Qed.

(** X13.  What every call carries.  With image data the call goes to the
    multimodal address, with two parts: the prompt behind the
    transcription directive, and the image as inline data with the type of
    the selected file and the data as given.  Without image data it goes to
    the text address with the prompt as its only part.  In both cases the
    request asks for [application/json] under the schema of the revision,
    with the fixed system instruction. *)
Theorem request_of_a_submission :
  forall rev engine transport st base64Image textInput url body,
    In (EFetch url body)
       (trace (fetchGeminiAnalysis rev engine transport st base64Image textInput)) ->
    responseMimeType body = lit "application/json" /\
    responseSchema body = analysisSchema rev /\
    systemInstruction body = mkContent [TextPart systemInstructionText] /\
    match base64Image with
    | Some (c :: data) =>
        exists file,
          imageFile st = Some file /\
          url = API_URL_MULTIMODAL /\
          contents body
          = [mkContent [TextPart (imagePrompt (prompt rev (numHeadlines st) textInput));
                        InlineData (fileType file) (c :: data)]]
    | _ =>
        url = API_URL_TEXT /\
        contents body = [mkContent [TextPart (prompt rev (numHeadlines st) textInput)]]
    end.
Proof.
  intros rev engine transport st base64Image textInput url body Hin.
  exact (@fetchGeminiAnalysis_request rev engine transport st base64Image textInput
           url body Hin).
Qed.

Lemma request_of_a_submission_witness :
  let file := mkFile (lit "page.png") (lit "image/png") in
  let st := handleFileChange AppJsx (Some file) initialState in
  let text := inputText st in
  let payload := buildPayload AppJsx
                   [mkContent [TextPart (imagePrompt (prompt AppJsx 10 text));
                               InlineData (lit "image/png") (lit "iVBORw0KGgo=")]]
                   (prompt AppJsx 10 text) in
  exists f,
    imageFile st = Some f /\
    API_URL_MULTIMODAL = API_URL_MULTIMODAL /\
    contents payload
    = [mkContent [TextPart (imagePrompt (prompt AppJsx 10 text));
                  InlineData (fileType f) (lit "iVBORw0KGgo=")]].
Proof.
  intros file st text payload.
  refine (proj2 (proj2 (proj2
    (@request_of_a_submission AppJsx plainEngine (always (respond (textBody (lit "{}"))))
       st (Some (lit "iVBORw0KGgo=")) text API_URL_MULTIMODAL payload _)))).
  left. reflexivity.
Defined.

(** X14.  A reply whose text field is not a string, but truthy (a number
    other than zero, [true], an array, an object), makes [jsonText.replace]
    raise the TypeError of the engine; the error is caught like any other:
    it is logged, and after a wait of 1000 the call is made again. *)
Theorem text_that_is_not_a_string_is_retried :
  forall rev engine transport st base64Image textInput v,
    submittable st base64Image textInput ->
    (forall url body, exists status result,
        transport 0%nat url body = FetchResponse true status (inr result) /\
        jsonTextOf result = Some v) ->
    truthy (Some v) = true ->
    (forall s, v <> JStr s) ->
    exists url body rest,
      trace (fetchGeminiAnalysis rev engine transport st base64Image textInput)
      = EFetch url body :: EConsoleError 1 (mkError (notFunctionMessage engine v)) ::
        ETimeout 1000 :: EFetch url body :: rest.
Proof.
  intros rev engine transport st base64Image textInput v Hsub Hreply Htruthy Hnot.
  apply first_failure_is_retried; [exact Hsub|].
  intros url body. destruct (Hreply url body) as (status & result & -> & Htext).
  cbn [tryBlock negb]. unfold readResult. rewrite Htext, Htruthy.
  destruct result; try discriminate;
    destruct v; try reflexivity; try discriminate;
    exfalso; eapply Hnot; reflexivity.
Qed.

Lemma text_that_is_not_a_string_is_retried_witness :
  exists url body rest,
    trace (fetchGeminiAnalysis AppJsx plainEngine
             (always (respond (JObj [field "candidates" (JArr [
                JObj [field "content" (JObj [field "parts" (JArr [
                  JObj [field "text" (JNum false 42 0)]])])]])])))
             initialState None cowText)
    = EFetch url body ::
      EConsoleError 1 (mkError (lit "jsonText.replace is not a function")) ::
      ETimeout 1000 :: EFetch url body :: rest.
Proof.
  apply (@text_that_is_not_a_string_is_retried AppJsx plainEngine _ initialState None
           cowText (JNum false 42 0)).
  - split; [reflexivity | discriminate].
  - intros url body. eexists. eexists. split; reflexivity.
  - reflexivity.
  - discriminate.
Defined.

(* ================================================================== *)
(** ** The handlers and the states they reach *)
(* ================================================================== *)

(** A submission that goes ahead makes a call, returns and clears the
    loading flag. *)
Lemma submission_settles rev engine transport st base64Image textInput :
  submittable st base64Image textInput ->
  let run := fetchGeminiAnalysis rev engine transport st base64Image textInput in
  completion run = Returned /\
  isLoading (finalState run) = false /\
  (1 <= fetchCount (trace run))%nat /\
  (error (finalState run) = [] \/ exists e, error (finalState run) = failureMessage e).
Proof.
  intros Hsub run.
  destruct (fetchGeminiAnalysis_runs_loop rev engine transport Hsub)
    as (url & body & Hrun & _).
  subst run. rewrite Hrun. unfold maxRetries. simpl.
  destruct (tryBlock engine (transport 0%nat url body)); simpl;
    [destruct (tryBlock engine (transport 1%nat url body)); simpl;
     [destruct (tryBlock engine (transport 2%nat url body)); simpl|]|];
    repeat split; try (unfold fetchCount; simpl; lia);
    try (left; destruct rev; reflexivity); right; eexists; reflexivity.
Qed.

(** The three ways a call of [fetchGeminiAnalysis] can go. *)
Lemma fetchGeminiAnalysis_cases rev engine transport st base64Image textInput :
  submittable st base64Image textInput \/
  fetchGeminiAnalysis rev engine transport st base64Image textInput
  = mkRun (setError (lit "Please provide text or an image to analyze.") st) [] Returned \/
  (hasImage base64Image = true /\ imageFile st = None).
Proof.
  destruct (hasText textInput || hasImage base64Image) eqn:Hinput.
  - destruct (hasImage base64Image) eqn:Himg.
    + destruct (imageFile st) as [file|] eqn:Hfile.
      * left. split; [rewrite Himg; exact Hinput | congruence].
      * right. right. auto.
    + left. split; [rewrite Himg; exact Hinput | congruence].
  - right. left. unfold fetchGeminiAnalysis.
    apply orb_false_elim in Hinput. destruct Hinput as [-> ->]. reflexivity.
Qed.

(** [handleAnalyze] always returns.  Either it makes no call and only sets
    an error, or it makes a call and ends with the loading flag cleared. *)
Lemma handleAnalyze_settles rev engine transport reader st :
  let run := handleAnalyze rev engine transport reader st in
  completion run = Returned /\
  ((trace run = [] /\ exists msg, finalState run = setError msg st) \/
   ((1 <= fetchCount (trace run))%nat /\ isLoading (finalState run) = false)).
Proof.
  cbv zeta. unfold handleAnalyze.
  destruct (negb (hasText (inputText st)) && negb (hasFile (imageFile st)))
    eqn:Hguard; [split; [reflexivity | left; split; [reflexivity | eexists; reflexivity]]|].
  destruct (imageFile st) as [file|] eqn:Hfile.
  - destruct (fileToBase64 reader file) as [e|base64];
      [split; [reflexivity | left; split; [reflexivity | eexists; reflexivity]]|].
    destruct (fetchGeminiAnalysis_cases rev engine transport st base64 (inputText st))
      as [Hsub|[Hrefused|[_ Hnone]]].
    + destruct (submission_settles rev engine transport Hsub) as (Hc & Hl & Hn & _).
      split; [exact Hc | right; auto].
    + rewrite Hrefused. split; [reflexivity | left; split; [reflexivity | eexists; reflexivity]].
    + congruence.
  - destruct (fetchGeminiAnalysis_cases rev engine transport st None (inputText st))
      as [Hsub|[Hrefused|[Himg _]]].
    + destruct (submission_settles rev engine transport Hsub) as (Hc & Hl & Hn & _).
      split; [exact Hc | right; auto].
    + rewrite Hrefused. split; [reflexivity | left; split; [reflexivity | eexists; reflexivity]].
    + discriminate.
Qed.

(** X15.  A click on Analyze or Refresh never rejects.  Given a reader and
    a transport whose calls settle, as those of the model do, the handler
    returns instead of throwing; when it made no call it changed nothing
    but the error, and when it made a call the loading flag is cleared at
    its end.  (A call that stays pending is outside the model: the source
    sets no timeout.) *)
Theorem analyze_never_rejects :
  forall rev engine transport reader st,
    let run := handleAnalyze rev engine transport reader st in
    completion run = Returned /\
    ((trace run = [] /\ exists msg, finalState run = setError msg st) \/
     ((1 <= fetchCount (trace run))%nat /\ isLoading (finalState run) = false)).
Proof.
  intros rev engine transport reader st.
  exact (handleAnalyze_settles rev engine transport reader st).
Qed.

Lemma handleAnalyze_keeps_count rev engine transport reader st :
  numHeadlines (finalState (handleAnalyze rev engine transport reader st))
  = numHeadlines st.
Proof.
  unfold handleAnalyze.
  destruct (negb (hasText (inputText st)) && negb (hasFile (imageFile st)));
    [reflexivity|].
  destruct (imageFile st) as [file|].
  - destruct (fileToBase64 reader file) as [e|base64]; [reflexivity|].
    apply fetchGeminiAnalysis_keeps_input.
  - apply fetchGeminiAnalysis_keeps_input.
Qed.

(** X16.  In every state the interface can reach, the loading flag is
    down: each submission clears it before its handler ends, so the
    controls are never left disabled. *)
Theorem reachable_states_are_not_loading :
  forall rev st, Reachable rev st -> isLoading st = false.
Proof.
  intros rev st Hreach.
  induction Hreach as [|st file _ IH|st value _ IH|st n _ IH _
                       |st engine transport reader _ IH].
  - reflexivity.
  - destruct file; exact IH.
  - exact IH.
  - exact IH.
  - destruct (handleAnalyze_settles rev engine transport reader st)
      as (_ & [(_ & msg & Hst)|(_ & Hloading)]).
    + rewrite Hst. exact IH.
    + exact Hloading.
Qed.

Lemma reachable_states_are_not_loading_witness :
  isLoading (finalState (handleAnalyze AppJsx plainEngine
               (always (FetchRejected (mkError (lit "Failed to fetch")))) noReader
               (handleTextChange cowText initialState))) = false.
Proof.
  apply (@reachable_states_are_not_loading AppJsx).
  apply ReachAnalyze, ReachTextChange, ReachInitial.
Defined.

(** X17.  In every state the interface can reach, the headline count is the
    initial 10 or one of the five options; so it lies between 5 and 21,
    within the range 5..25 the prompt is written for. *)
Theorem reachable_headline_count :
  forall rev st,
    Reachable rev st ->
    In (numHeadlines st) (10 :: headlineOptions)%Z /\
    (5 <= numHeadlines st <= 21)%Z.
Proof.
  intros rev st Hreach.
  assert (Hin : In (numHeadlines st) (10 :: headlineOptions)%Z).
  { induction Hreach as [|st file _ IH|st value _ IH|st n _ IH Hn
                         |st engine transport reader _ IH].
    - left. reflexivity.
    - destruct file; exact IH.
    - exact IH.
    - right. exact Hn.
    - rewrite handleAnalyze_keeps_count. exact IH. }
  split; [exact Hin|].
  cbv [headlineOptions map seq] in Hin. simpl in Hin.
  repeat (destruct Hin as [Hin|Hin]; [rewrite <- Hin; lia|]). contradiction.
Qed.

Lemma reachable_headline_count_witness :
  (5 <= numHeadlines (handleHeadlinesChange 21 initialState) <= 21)%Z.
Proof.
  apply (@reachable_headline_count AppJsx).
  apply ReachHeadlinesChange; [apply ReachInitial|].
  right. right. right. right. left. reflexivity.
Defined.

Lemma imagePlaceholder_hasText rev name : hasText (imagePlaceholder rev name) = true.
Proof. destruct rev; reflexivity. Qed.

(** X18.  From a state the interface can reach, a click makes no outbound
    call in two cases only: there is neither text nor a selected file, or
    the selected file cannot be read. *)
Theorem analyze_makes_no_call_iff :
  forall rev engine transport reader st,
    Reachable rev st ->
    (trace (handleAnalyze rev engine transport reader st) = [] <->
     (inputText st = [] /\ imageFile st = None) \/
     (exists file e, imageFile st = Some file /\ reader file = ReadFailed e)).
Proof.
  intros rev engine transport reader st Hreach.
  pose proof (placeholder_invariant Hreach) as Hplaceholder.
  unfold handleAnalyze.
  destruct (imageFile st) as [file|] eqn:Hfile.
  - rewrite andb_false_r. unfold fileToBase64.
    destruct (reader file) as [e|dataUrl] eqn:Hread.
    + split; [intros _; right; eauto | reflexivity].
    + split.
      * intros Hnone. exfalso.
        assert (Hsub : submittable st (nth_error (split (ch ",") dataUrl) 1) (inputText st)).
        { split; [|congruence].
          rewrite (Hplaceholder file eq_refl), imagePlaceholder_hasText. reflexivity. }
        destruct (submission_settles rev engine transport Hsub) as (_ & _ & Hcalls & _).
        rewrite Hnone in Hcalls. unfold fetchCount in Hcalls. simpl in Hcalls. lia.
      * intros [[_ Habs]|(f & e & Hf & He)]; [discriminate|].
        inversion Hf; subst f. congruence.
  - rewrite andb_true_r. destruct (hasText (inputText st)) eqn:Htext; cbn [negb].
    + split.
      * intros Hnone. exfalso.
        assert (Hsub : submittable st None (inputText st)).
        { split; [rewrite Htext; reflexivity | discriminate]. }
        destruct (submission_settles rev engine transport Hsub) as (_ & _ & Hcalls & _).
        rewrite Hnone in Hcalls. unfold fetchCount in Hcalls. simpl in Hcalls. lia.
      * intros [[Hempty _]|(f & e & Hf & _)]; [|discriminate].
        rewrite Hempty in Htext. discriminate.
    + split; [|reflexivity].
      intros _. left. destruct (inputText st); [auto | discriminate].
Qed.

Lemma analyze_makes_no_call_iff_witness :
  trace (handleAnalyze AppJsx plainEngine (always (respond (textBody (lit "{}"))))
           noReader
           (handleFileChange AppJsx (Some (mkFile (lit "a.png") (lit "image/png")))
                             initialState)) = [].
Proof.
  apply (@analyze_makes_no_call_iff AppJsx).
  - apply ReachFileChange, ReachInitial.
  - right. eexists. eexists. split; reflexivity.
Defined.

Lemma failureMessage_is_not_the_refusal e :
  failureMessage e <> lit "Please paste text or select an image.".
Proof. rewrite failureMessage_three. discriminate. Qed.

(** X19.  The Analyze button and the guard of its handler agree.  While
    the button is enabled, a click never ends in the refusal "Please paste
    text or select an image."; and when the button is disabled although
    nothing is loading, that refusal is all a click would do. *)
Theorem analyze_button_matches_guard :
  forall rev engine transport reader st,
    let run := handleAnalyze rev engine transport reader st in
    (analyzeDisabled st = false ->
     error (finalState run) <> lit "Please paste text or select an image.") /\
    (analyzeDisabled st = true -> isLoading st = false ->
     run = mkRun (setError (lit "Please paste text or select an image.") st) [] Returned).
Proof.
  intros rev engine transport reader st run. subst run.
  unfold analyzeDisabled, handleAnalyze. split.
  - intros Henabled. apply orb_false_elim in Henabled. destruct Henabled as [_ ->].
    destruct (imageFile st) as [file|] eqn:Hfile.
    + destruct (fileToBase64 reader file) as [e|base64]; [discriminate|].
      destruct (fetchGeminiAnalysis_cases rev engine transport st base64 (inputText st))
        as [Hsub|[Hrefused|[_ Hnone]]]; [| rewrite Hrefused; discriminate | congruence].
      destruct (submission_settles rev engine transport Hsub)
        as (_ & _ & _ & [Herr|(e & Herr)]); rewrite Herr;
        [discriminate | apply failureMessage_is_not_the_refusal].
    + destruct (fetchGeminiAnalysis_cases rev engine transport st None (inputText st))
        as [Hsub|[Hrefused|[Himg _]]]; [| rewrite Hrefused; discriminate | discriminate].
      destruct (submission_settles rev engine transport Hsub)
        as (_ & _ & _ & [Herr|(e & Herr)]); rewrite Herr;
        [discriminate | apply failureMessage_is_not_the_refusal].
  - intros Hdisabled Hidle. rewrite Hidle in Hdisabled. cbn [orb] in Hdisabled.
    rewrite Hdisabled. reflexivity.
Qed.

Lemma analyze_button_matches_guard_witness :
  error (finalState (handleAnalyze AppJsx plainEngine
           (always (FetchRejected (mkError (lit "Failed to fetch")))) noReader
           (handleTextChange cowText initialState)))
  <> lit "Please paste text or select an image." /\
  handleAnalyze AppJsx plainEngine
    (always (FetchRejected (mkError (lit "Failed to fetch")))) noReader initialState
  = mkRun (setError (lit "Please paste text or select an image.") initialState)
          [] Returned.
Proof.
  split.
  - apply (proj1 (@analyze_button_matches_guard AppJsx plainEngine
                    (always (FetchRejected (mkError (lit "Failed to fetch")))) noReader
                    (handleTextChange cowText initialState))).
    reflexivity.
  - apply (proj2 (@analyze_button_matches_guard AppJsx plainEngine
                    (always (FetchRejected (mkError (lit "Failed to fetch")))) noReader
                    initialState)); reflexivity.
Defined.

(** X20.  Typing into the text area drops the selected image: whatever was
    selected before, a submission after an edit to a non-empty text goes to
    the text address, with the prompt over exactly that text as its only
    part, and at least one call is made. *)
Theorem edited_text_is_submitted_as_text :
  forall rev engine transport reader st value,
    hasText value = true ->
    let run := handleAnalyze rev engine transport reader (handleTextChange value st) in
    (1 <= fetchCount (trace run))%nat /\
    forall url body,
      In (EFetch url body) (trace run) ->
      url = API_URL_TEXT /\
      contents body = [mkContent [TextPart (prompt rev (numHeadlines st) value)]].
Proof.
  intros rev engine transport reader st value Hvalue run. subst run.
  unfold handleAnalyze. cbn [handleTextChange imageFile inputText setImageFile setInputText].
  rewrite Hvalue. cbn [negb andb].
  assert (Hsub : submittable (handleTextChange value st) None value)
    by (split; [rewrite Hvalue; reflexivity | discriminate]).
  split.
  - apply (submission_settles rev engine transport Hsub).
  - intros url body Hin.
    apply fetchGeminiAnalysis_request in Hin. apply Hin.
Qed.

Lemma edited_text_is_submitted_as_text_witness :
  (1 <= fetchCount (trace (handleAnalyze AppJsx plainEngine
          (always (respond (textBody (lit "{}")))) pngReader
          (handleTextChange cowText
             (handleFileChange AppJsx (Some (mkFile (lit "a.png") (lit "image/png")))
                               initialState)))))%nat.
Proof.
  apply (@edited_text_is_submitted_as_text AppJsx plainEngine
           (always (respond (textBody (lit "{}")))) pngReader). reflexivity.
Defined.

(* ================================================================== *)
(** ** Reading the selected file *)
(* ================================================================== *)

Lemma split_without_separator sep s :
  forallb (fun c => negb (c =? sep)%N) s = true -> split sep s = [s].
Proof.
  induction s as [|c s IH]; intros H; [reflexivity|].
  cbn [forallb] in H. apply andb_prop in H. destruct H as [Hc Hs].
  apply negb_true_iff in Hc. cbn [split]. rewrite Hc, (IH Hs). reflexivity.
Qed.

Lemma split_at_first_separator sep header rest :
  forallb (fun c => negb (c =? sep)%N) header = true ->
  split sep (header ++ sep :: rest) = header :: split sep rest.
Proof.
  induction header as [|c header IH]; intros H.
  - cbn [app split]. rewrite N.eqb_refl. reflexivity.
  - cbn [forallb] in H. apply andb_prop in H. destruct H as [Hc Hs].
    apply negb_true_iff in Hc. cbn [app split]. rewrite Hc, (IH Hs). reflexivity.
Qed.

(** The payload of a data URL is the text after its comma. *)
Lemma fileToBase64_payload reader file header data :
  reader file = ReadLoaded (header ++ ch "," :: data) ->
  forallb (fun c => negb (c =? ch ",")%N) header = true ->
  forallb (fun c => negb (c =? ch ",")%N) data = true ->
  fileToBase64 reader file = inr (Some data).
Proof.
  intros Hread Hheader Hdata. unfold fileToBase64. rewrite Hread.
  rewrite split_at_first_separator by exact Hheader.
  rewrite split_without_separator by exact Hdata. reflexivity.
Qed.

(** X21.  A selected image is sent inline.  When the reader loads the data
    URL [header,data], every call of the submission goes to the multimodal
    address and carries two parts: the prompt over the text input behind
    the transcription directive, and the inline data [data] under the type
    of the selected file. *)
Theorem selected_image_is_sent_inline :
  forall rev engine transport reader st file header data,
    imageFile st = Some file ->
    reader file = ReadLoaded (header ++ ch "," :: data) ->
    forallb (fun c => negb (c =? ch ",")%N) header = true ->
    forallb (fun c => negb (c =? ch ",")%N) data = true ->
    hasText data = true ->
    let run := handleAnalyze rev engine transport reader st in
    (1 <= fetchCount (trace run))%nat /\
    forall url body,
      In (EFetch url body) (trace run) ->
      url = API_URL_MULTIMODAL /\
      contents body
      = [mkContent [TextPart (imagePrompt (prompt rev (numHeadlines st) (inputText st)));
                    InlineData (fileType file) data]].
Proof.
  intros rev engine transport reader st file header data
         Hfile Hread Hheader Hdata Hnonempty run. subst run.
  unfold handleAnalyze. rewrite Hfile, andb_false_r.
  rewrite (fileToBase64_payload reader file header data Hread Hheader Hdata).
  destruct data as [|c data]; [discriminate|].
  assert (Hsub : submittable st (Some (c :: data)) (inputText st))
    by (split; [apply orb_true_r | congruence]).
  split.
  - apply (submission_settles rev engine transport Hsub).
  - intros url body Hin. apply fetchGeminiAnalysis_request in Hin.
    destruct Hin as (_ & _ & _ & f & Hf & Hurl & Hcontents).
    rewrite Hfile in Hf. inversion Hf; subst f. auto.
Qed.

Lemma selected_image_is_sent_inline_witness :
  let file := mkFile (lit "page.png") (lit "image/png") in
  (1 <= fetchCount (trace (handleAnalyze AppJsx plainEngine
          (always (respond (textBody (lit "{}")))) pngReader
          (handleFileChange AppJsx (Some file) initialState))))%nat.
Proof.
  intros file.
  apply (@selected_image_is_sent_inline AppJsx plainEngine
           (always (respond (textBody (lit "{}")))) pngReader
           (handleFileChange AppJsx (Some file) initialState) file
           (lit "data:image/png;base64") (lit "iVBORw0KGgo="));
    reflexivity.
Defined.

(** X22.  A data URL without a payload: when what the reader loads has no
    comma, or nothing between its first comma and the next, the selected
    image is not sent at all.  The submission still goes out, to the text
    address, and its article text is the placeholder of the file. *)
Theorem image_without_payload_is_sent_as_text :
  forall rev engine transport reader st file dataUrl,
    Reachable rev st ->
    imageFile st = Some file ->
    reader file = ReadLoaded dataUrl ->
    hasImage (nth_error (split (ch ",") dataUrl) 1) = false ->
    let run := handleAnalyze rev engine transport reader st in
    (1 <= fetchCount (trace run))%nat /\
    forall url body,
      In (EFetch url body) (trace run) ->
      url = API_URL_TEXT /\
      contents body
      = [mkContent [TextPart (prompt rev (numHeadlines st)
                                     (imagePlaceholder rev (fileName file)))]].
Proof.
  intros rev engine transport reader st file dataUrl Hreach Hfile Hread Hempty run.
  subst run. pose proof (placeholder_invariant Hreach Hfile) as Htext.
  unfold handleAnalyze, fileToBase64. rewrite Hfile, andb_false_r, Hread, Htext.
  assert (Hsub : submittable st (nth_error (split (ch ",") dataUrl) 1)
                             (imagePlaceholder rev (fileName file))).
  { split; [rewrite imagePlaceholder_hasText; reflexivity | congruence]. }
  split.
  - apply (submission_settles rev engine transport Hsub).
  - intros url body Hin. apply fetchGeminiAnalysis_request in Hin.
    destruct Hin as (_ & _ & _ & Hrequest).
    destruct (nth_error (split (ch ",") dataUrl) 1) as [[|c data]|];
      try discriminate; exact Hrequest.
Qed.

Lemma image_without_payload_is_sent_as_text_witness :
  let file := mkFile (lit "empty.png") (lit "image/png") in
  (1 <= fetchCount (trace (handleAnalyze AppJsx plainEngine
          (always (respond (textBody (lit "{}")))) (fun _ => ReadLoaded (lit "data:"))
          (handleFileChange AppJsx (Some file) initialState))))%nat.
Proof.
  intros file.
  apply (@image_without_payload_is_sent_as_text AppJsx plainEngine
           (always (respond (textBody (lit "{}")))) (fun _ => ReadLoaded (lit "data:"))
           (handleFileChange AppJsx (Some file) initialState) file (lit "data:")).
  - apply ReachFileChange, ReachInitial.
  - reflexivity.
  - reflexivity.
  - reflexivity.
Defined.

(* ================================================================== *)
(** ** Cleaning twice *)
(* ================================================================== *)

Lemma trimStart_length s : (List.length (trimStart s) <= List.length s)%nat.
Proof.
  induction s as [|c s IH]; [reflexivity|].
  cbn [trimStart]. destruct (isWhiteSpace c); simpl; lia.
Qed.

Lemma trimStart_trimStart s : trimStart (trimStart s) = trimStart s.
Proof.
  induction s as [|c s IH]; [reflexivity|].
  cbn [trimStart]. destruct (isWhiteSpace c) eqn:Hc; [exact IH|].
  cbn [trimStart]. rewrite Hc. reflexivity.
Qed.

Lemma trimEnd_trimEnd s : trimEnd (trimEnd s) = trimEnd s.
Proof.
  unfold trimEnd. rewrite rev_involutive, trimStart_trimStart. reflexivity.
Qed.

(** Trimming the end of a text that does not start with whitespace leaves
    a text that does not start with whitespace. *)
Lemma trimStart_trimEnd s : trimStart s = s -> trimStart (trimEnd s) = trimEnd s.
Proof.
  intros Hs. destruct (trimEnd_prefix s) as [b Hb].
  destruct (trimEnd s) as [|c z]; [reflexivity|].
  cbn [trimStart]. destruct (isWhiteSpace c) eqn:Hc; [|reflexivity].
  exfalso. rewrite Hb in Hs. cbn [app trimStart] in Hs. rewrite Hc in Hs.
  pose proof (trimStart_length (z ++ b)) as Hlen. rewrite Hs in Hlen.
  simpl in Hlen. lia.
Qed.

Lemma trim_trim s : trim (trim s) = trim s.
Proof.
  unfold trim.
  rewrite (@trimStart_trimEnd (trimStart s) (trimStart_trimStart s)).
  apply trimEnd_trimEnd.
Qed.

(** X24.  Cleaning is idempotent: cleaning a cleaned text changes
    nothing. *)
Theorem cleaning_is_idempotent :
  forall jsonText, cleanJsonText (cleanJsonText jsonText) = cleanJsonText jsonText.
Proof.
  intros jsonText.
  unfold cleanJsonText at 1.
  rewrite replaceFences_identity by apply cleanJsonText_no_fence.
  unfold cleanJsonText. apply trim_trim.
Qed.

(* ================================================================== *)
(** ** Signing in *)
(* ================================================================== *)

Ltac in_cases H :=
  repeat (destruct H as [H|H]; try discriminate); try contradiction.

(** X25.  The sign-in policy of the listener.  With a user at hand it
    makes no sign-in call.  Without one it tries the custom token when the
    environment gave a non-empty one, and signs in anonymously exactly when
    there is no token or the token was refused; a refused token does not by
    itself fail the listener.  It never makes more than two sign-in
    calls. *)
Theorem sign_in_policy :
  forall firebase initialAuthToken user st,
    let run := authStateListener firebase initialAuthToken user st in
    (List.length (filter isSignIn (authTrace run)) <= 2)%nat /\
    (user <> None -> authTrace run = []) /\
    (In CallSignInAnonymously (authTrace run) <->
     user = None /\
     match initialAuthToken with
     | Some ((_ :: _) as token) =>
         exists e, signInWithCustomToken firebase token = inl e
     | _ => True
     end) /\
    (forall token, In (CallSignInWithCustomToken token) (authTrace run) <->
                   user = None /\ initialAuthToken = Some token /\ token <> []) /\
    (forall u, signInAnonymously firebase = inr u -> authCompletion run = Returned).
Proof.
  intros firebase initialAuthToken user st run. subst run.
  unfold authStateListener.
  destruct user as [u|];
    [|destruct initialAuthToken as [[|c token]|];
      [|destruct (signInWithCustomToken firebase (c :: token)) as [e|u] eqn:Hcustom|];
      try (destruct (signInAnonymously firebase) as [e'|u'] eqn:Hanon)];
    cbn [publishUser authTrace authCompletion filter isSignIn List.length In];
    (split; [lia|]); (split; [try congruence; auto|]);
    (split;
     [split;
      [intros H; in_cases H; split; eauto
      |intros [Hu H]; try discriminate; try (destruct H; discriminate); auto]|]).
  all: (split;
        [intros tk; split;
         [intros H; in_cases H; try (inversion H; subst; repeat split; congruence)
         |intros (Hu & Ht & Hne); try discriminate;
          try (inversion Ht; subst; try contradiction; auto)]|]).
  all: try (intros; congruence).
Qed.

(** X26.  How the listener ends.  Either it returns, and then it has set
    the ready flag and published the id of the user it was called with or
    of the user a sign-in call gave; or the anonymous sign-in was refused,
    and then the listener rejects with that error and leaves the user id
    and the ready flag as they were, so the page keeps showing
    "Authenticating..." if it did before. *)
Theorem listener_publishes_or_rejects :
  forall firebase initialAuthToken user st,
    let run := authStateListener firebase initialAuthToken user st in
    match authCompletion run with
    | Returned =>
        isAuthReady (authState run) = true /\
        exists u,
          userId (authState run) = Some (uid u) /\
          (uid u <> [] -> displayedUserId (authState run) = uid u) /\
          (user = Some u \/
           (user = None /\
            ((exists token, initialAuthToken = Some token /\
                            signInWithCustomToken firebase token = inr u) \/
             signInAnonymously firebase = inr u)))
    | Threw e =>
        user = None /\
        signInAnonymously firebase = inl e /\
        authState run = st /\
        displayedUserId (authState run) = displayedUserId st
    end.
Proof.
  intros firebase initialAuthToken user st run. subst run.
  assert (Hshow : forall u, uid u <> [] ->
            displayedUserId (mkAuthState (Some (uid u)) true) = uid u).
  { intros u Hne. unfold displayedUserId. cbn [userId].
    destruct (uid u); [contradiction | reflexivity]. }
  unfold authStateListener.
  destruct user as [u|];
    [|destruct initialAuthToken as [[|c token]|];
      [|destruct (signInWithCustomToken firebase (c :: token)) as [e|u] eqn:Hcustom|];
      try (destruct (signInAnonymously firebase) as [e'|u'] eqn:Hanon)];
    cbn [publishUser authState authCompletion isAuthReady userId option_map];
    try (repeat split; reflexivity);
    (split; [reflexivity|]); eexists; (split; [reflexivity|]); (split; [apply Hshow|]);
    eauto 6.
Qed.

(* ================================================================== *)
(** ** The log, the last error and the inputs *)
(* ================================================================== *)

Lemma retryLoop_log engine transport apiUrl payload st :
  let run := retryLoop engine transport apiUrl payload maxRetries 0 None st in
  exists k,
    loggedAttempts (trace run) = seq 1 k /\
    ((fetchCount (trace run) = 3%nat /\ k = 3%nat /\ error (finalState run) <> []) \/
     (fetchCount (trace run) = S k /\ (k < 3)%nat /\
      error (finalState run) = error st)).
Proof.
  unfold maxRetries. simpl.
  destruct (tryBlock engine (transport 0%nat apiUrl payload)); simpl;
    [destruct (tryBlock engine (transport 1%nat apiUrl payload)); simpl;
     [destruct (tryBlock engine (transport 2%nat apiUrl payload)); simpl|]|].
  - exists 3%nat. split; [reflexivity|]. left. repeat split.
    apply failureMessage_nonempty.
  - exists 2%nat. split; [reflexivity|]. right. repeat split. lia.
  - exists 1%nat. split; [reflexivity|]. right. repeat split. lia.
  - exists 0%nat. split; [reflexivity|]. right. repeat split. lia.
Qed.

(** X27.  No failure is swallowed: every failed attempt is logged once,
    under its number counted from 1.  With k attempts logged, either all
    calls failed (none was made, or all three were, and then an error is
    set), or one more call was made and it succeeded, leaving no error. *)
Theorem every_failed_attempt_is_logged :
  forall rev engine transport st base64Image textInput,
    let run := fetchGeminiAnalysis rev engine transport st base64Image textInput in
    exists k,
      loggedAttempts (trace run) = seq 1 k /\
      ((fetchCount (trace run) = k /\ (k = 0%nat \/ k = 3%nat) /\
        (k = 3%nat -> error (finalState run) <> [])) \/
       (fetchCount (trace run) = S k /\ (k < 3)%nat /\ error (finalState run) = [])).
Proof.
  intros rev engine transport st base64Image textInput run. subst run.
  destruct (fetchGeminiAnalysis_dichotomy rev engine transport st base64Image textInput)
    as [Hsub|Hnone].
  - destruct (fetchGeminiAnalysis_runs_loop rev engine transport Hsub)
      as (url & body & Hrun & _).
    rewrite Hrun.
    destruct (retryLoop_log engine transport url body (beginAnalysis rev st))
      as (k & Hlog & [(Hcalls & -> & Herr)|(Hcalls & Hk & Herr)]).
    + exists 3%nat. split; [exact Hlog|]. left. auto.
    + exists k. split; [exact Hlog|]. right. repeat split; try assumption.
      rewrite Herr. destruct rev; reflexivity.
  - exists 0%nat. rewrite Hnone. split; [reflexivity|]. left.
    repeat split; [auto | discriminate].
Qed.

(** X28.  The error that is reported is the last one.  When the three
    attempts fail with the errors e0, e1 and e2, of whatever kinds, they
    are logged in that order and the message shown is "Analysis failed
    after 3 attempts. Error: " followed by the message of e2 alone. *)
Theorem last_error_is_reported :
  forall rev engine transport st base64Image textInput e0 e1 e2,
    submittable st base64Image textInput ->
    (forall url body, tryBlock engine (transport 0%nat url body) = inl e0) ->
    (forall url body, tryBlock engine (transport 1%nat url body) = inl e1) ->
    (forall url body, tryBlock engine (transport 2%nat url body) = inl e2) ->
    let run := fetchGeminiAnalysis rev engine transport st base64Image textInput in
    (exists url body,
        trace run = [EFetch url body; EConsoleError 1 e0; ETimeout 1000;
                     EFetch url body; EConsoleError 2 e1; ETimeout 2000;
                     EFetch url body; EConsoleError 3 e2]) /\
    error (finalState run)
    = lit "Analysis failed after 3 attempts. Error: " ++ message e2.
Proof.
  intros rev engine transport st base64Image textInput e0 e1 e2 Hsub H0 H1 H2 run.
  destruct (fetchGeminiAnalysis_runs_loop rev engine transport Hsub)
    as (url & body & Hrun & _).
  subst run. rewrite Hrun.
  rewrite (retryLoop_three_failures engine transport url body _
             (H0 url body) (H1 url body) (H2 url body)).
  split; [exists url, body; reflexivity | reflexivity].
Qed.

Lemma last_error_is_reported_witness :
  error (finalState (fetchGeminiAnalysis AppJsx plainEngine
           (scripted [FetchResponse false 500 (inr JNull);
                      respond (finishBody "SAFETY");
                      respond (textBody (lit "oops"))])
           initialState None cowText))
  = lit "Analysis failed after 3 attempts. Error: JSON.parse: unexpected character of the JSON data".
Proof.
  refine (proj2 (@last_error_is_reported AppJsx plainEngine
                   (scripted [FetchResponse false 500 (inr JNull);
                              respond (finishBody "SAFETY");
                              respond (textBody (lit "oops"))])
                   initialState None cowText
                   (httpError 500) safetyError
                   (mkError (lit "JSON.parse: unexpected character of the JSON data"))
                   _ _ _ _)).
  - split; [reflexivity | discriminate].
  - reflexivity.
  - reflexivity.
  - reflexivity.
Defined.

(** X29.  A click never touches the inputs: after [handleAnalyze], however
    it went, the text input, the selected file and the headline count are
    what they were. *)
Theorem analyze_leaves_the_inputs_alone :
  forall rev engine transport reader st,
    let st' := finalState (handleAnalyze rev engine transport reader st) in
    inputText st' = inputText st /\
    imageFile st' = imageFile st /\
    numHeadlines st' = numHeadlines st.
Proof.
  intros rev engine transport reader st.
  destruct (handleAnalyze_keeps_input rev engine transport reader st) as [Ht Hf].
  pose proof (handleAnalyze_keeps_count rev engine transport reader st) as Hn.
  auto.
Qed.

(* ================================================================== *)
(** ** Responses without content *)
(* ================================================================== *)






(* ================================================================== *)
(** ** What an image submission sends *)
(* ================================================================== *)



(* ================================================================== *)
(** ** The order of calls and waits *)
(* ================================================================== *)

(** The calls and waits of the loop, over the four ways it can go. *)
Lemma retryLoop_schedule engine transport apiUrl payload st :
  let run := retryLoop engine transport apiUrl payload maxRetries 0 None st in
  (1 <= fetchCount (trace run) <= 3)%nat /\
  withoutLog (trace run)
  = firstn (2 * fetchCount (trace run) - 1)
           [EFetch apiUrl payload; ETimeout 1000; EFetch apiUrl payload;
            ETimeout 2000; EFetch apiUrl payload].
Proof.
  unfold maxRetries. simpl.
  destruct (tryBlock engine (transport 0%nat apiUrl payload)); simpl;
    [destruct (tryBlock engine (transport 1%nat apiUrl payload)); simpl;
     [destruct (tryBlock engine (transport 2%nat apiUrl payload)); simpl|]|];
    (split; [unfold fetchCount; simpl; lia | reflexivity]).
Qed.

(** X8.  Whatever the input and whatever the transport does, a submission
    makes at most three outbound calls, and its calls and waits come in the
    order call, wait 1000, call, wait 2000, call, cut off after its last
    call: a wait stands between two calls only, never before the first
    call or after the last.  So its waits are the first (calls - 1) of
    1000, 2000. *)
Theorem calls_and_waits_are_bounded :
  forall rev engine transport st base64Image textInput,
    let run := fetchGeminiAnalysis rev engine transport st base64Image textInput in
    (fetchCount (trace run) <= 3)%nat /\
    delays (trace run) = firstn (fetchCount (trace run) - 1) [1000; 2000]%Z /\
    exists url body,
      withoutLog (trace run)
      = firstn (2 * fetchCount (trace run) - 1)
               [EFetch url body; ETimeout 1000; EFetch url body;
                ETimeout 2000; EFetch url body].
Proof.
  intros rev engine transport st base64Image textInput run. subst run.
  destruct (fetchGeminiAnalysis_dichotomy rev engine transport st base64Image textInput)
    as [Hsub|Hnone].
  - destruct (fetchGeminiAnalysis_runs_loop rev engine transport Hsub)
      as (url & body & Hrun & _).
    rewrite Hrun.
    destruct (retryLoop_calls_and_waits engine transport url body (beginAnalysis rev st))
      as [Hcalls Hdelays].
    destruct (retryLoop_schedule engine transport url body (beginAnalysis rev st))
      as [_ Hschedule].
    split; [exact Hcalls|]. split; [exact Hdelays|].
    exists url, body. exact Hschedule.
  - rewrite Hnone. split; [unfold fetchCount; simpl; lia|]. split; [reflexivity|].
    exists [], (buildPayload rev [] []). reflexivity.
Qed.

(* ================================================================== *)
(** ** The analysis after a click *)
(* ================================================================== *)



(* ================================================================== *)
(** ** The round trip through the fences *)
(* ================================================================== *)

(** A well-formed JSON text does not start with the word [json], whatever
    follows it. *)
Lemma parse_not_json_word text v rest :
  Json.parse text = Some v -> startsWith (lit "json") (text ++ rest) = false.
Proof.
  unfold Json.parse, tokenize. intros Hparse.
  destruct text as [|c text].
  - discriminate.
  - cbn [lexFrom lexStep] in Hparse.
    destruct (lexIdle c) as [[st out]|] eqn:Hidle; [|discriminate].
    assert (Hc : (ch "j" =? c)%N = false).
    { apply N.eqb_neq. intros <-. discriminate. }
    unfold lit. cbn [list_ascii_of_string map app startsWith].
    change (N_of_ascii "j") with (ch "j"). rewrite Hc. reflexivity.
Qed.

Lemma whiteSpace_not_json_word w rest :
  forallb isWhiteSpace w = true -> w <> [] ->
  startsWith (lit "json") (w ++ rest) = false.
Proof.
  destruct w as [|c w]; [contradiction|]. intros H _.
  cbn [forallb] in H. apply andb_prop in H. destruct H as [Hc _].
  assert (Hj : (ch "j" =? c)%N = false).
  { apply N.eqb_neq. intros <-. discriminate. }
  unfold lit. cbn [list_ascii_of_string map app startsWith].
  change (N_of_ascii "j") with (ch "j"). rewrite Hj. reflexivity.
Qed.

(** C6, as the code has it.  For a well-formed JSON text that holds no run
    of three backticks, cleaning the text wrapped in fences, opened by
    [```json] or by [```] and closed by [```], with any whitespace between
    the fences and the text, and parsing the result gives what parsing the
    text itself gives. *)
Theorem fenced_round_trip_without_inner_fence :
  forall text v pre post,
    Json.parse text = Some v ->
    includes fence text = false ->
    forallb isWhiteSpace pre = true ->
    forallb isWhiteSpace post = true ->
    Json.parse (cleanJsonText (fenceJson ++ pre ++ text ++ post ++ fence))
    = Json.parse text /\
    Json.parse (cleanJsonText (fence ++ pre ++ text ++ post ++ fence))
    = Json.parse text.
Proof.
  intros text v pre post Hparse Hno Hpre Hpost. rewrite Hparse. split.
  - exact (parse_cleaned_fenced text pre post Hparse Hno Hpre Hpost).
  - assert (Hlast : last text 0%N <> backtick).
    { unfold Json.parse in Hparse.
      destruct (tokenize text) as [ts|] eqn:Hlex; [|discriminate].
      exact (tokenize_last_not_backtick _ Hlex). }
    destruct (whiteSpace_no_fence _ Hpre) as [Hpre1 Hpre2].
    destruct (whiteSpace_no_fence _ Hpost) as [Hpost1 Hpost2].
    unfold cleanJsonText.
    rewrite replaceFences_match_fence.
    + change (skipn 3 (fence ++ pre ++ text ++ post ++ fence))
        with (pre ++ text ++ post ++ fence).
      rewrite !replaceFences_copy by assumption.
      change (replaceFences 0 fence) with (@nil N). rewrite app_nil_r.
      rewrite trim_padded by eauto using parse_needs_a_token.
      apply parse_trim. exact Hparse.
    + unfold fenceJson. rewrite startsWith_same_prefix.
      destruct pre as [|c pre].
      * apply (parse_not_json_word text (post ++ fence) Hparse).
      * apply whiteSpace_not_json_word; [exact Hpre | discriminate].
    + apply startsWith_app.
Qed.

Lemma fenced_round_trip_without_inner_fence_witness :
  Json.parse (cleanJsonText (fenceJson ++ lit "
" ++ jsonLit "{'headlinesAndSubheadlines': []}" ++ lit "
" ++ fence))
  = Json.parse (jsonLit "{'headlinesAndSubheadlines': []}").
Proof.
  exact (proj1 (@fenced_round_trip_without_inner_fence
                  (jsonLit "{'headlinesAndSubheadlines': []}")
                  (JObj [(lit "headlinesAndSubheadlines", JArr [])])
                  (lit "
") (lit "
") eq_refl eq_refl eq_refl eq_refl)).
Defined.

(** C6 as stated fails: the JSON string that consists of three backticks is
    well formed, but the cleaning step removes the backticks inside it
    together with the fences, and the wrapped text parses to the empty
    string. *)
Lemma fence_inside_json_string_counterexample :
  let text := [dquote] ++ fence ++ [dquote] in
  let wrapped := fenceJson ++ lit "
" ++ text ++ lit "
" ++ fence in
  Json.parse text = Some (JStr fence) /\
  Json.parse (cleanJsonText wrapped) = Some (JStr []) /\
  Json.parse (cleanJsonText wrapped) <> Json.parse text.
Proof. vm_compute. repeat split; try reflexivity. discriminate. Qed.
